(** * coral-agent: the transaction-interpretation routine

    A shallow embedding of [extractRelevantTxData] (src/src/index.ts,
    lines 268-354; the same function is repeated at lines 662-748 and in
    src/test.ts) together with the parts of the JavaScript runtime and of
    [@solana/web3.js] it calls, followed by the properties that the
    specification states about it.

    Conventions of the embedding.
    - A value that the code only tests for truthiness, reads through [?.] or
      defaults with [||] is an [option]: [None] stands for both [null] and
      [undefined], which such code cannot tell apart.
    - A value that the code compares with [!== null], or hands on to its
      caller, is a [jsval], which keeps [null] and [undefined] apart.
    - A function call either returns or throws ([result]); [try]/[catch] is
      [try_catch].
    - A string is the UTF-8 encoding of its text; its [length] is counted
      in UTF-16 code units ([utf16_length]).
    - The extractor is read twice.  [Exact.extractRelevantTxData] follows
      the code value for value: numbers are IEEE 754 doubles ([Double]),
      [toISOString] raises its RangeError, every nullable field of the
      summary is a [jsval].  [extractRelevantTxData] is the same function
      on records whose block time a [Date] holds, read with exact
      arithmetic (an integer is a [Z], a quotient a rational [Q], [NaN] is
      explicit) and with [null] and [undefined] taken together in the
      fields of the summary; [abstraction] relates the two.  The tool
      handlers call the first. *)

From Stdlib Require Import List String Ascii ZArith QArith Qpower Lia Bool.
From Stdlib Require Import DecimalString SpecFloat.
Import ListNotations.

Local Open Scope string_scope.
Local Open Scope Z_scope.

(** ** The JavaScript runtime *)

Module JS.

(** Outcome of a call: a returned value or a thrown error message. *)
Inductive result (A : Type) : Type :=
| Returned (a : A)
| Threw (e : string).
Arguments Returned {A} a.
Arguments Threw {A} e.

Definition bind {A B} (r : result A) (k : A -> result B) : result B :=
  match r with
  | Returned a => k a
  | Threw e => Threw e
  end.

(** [try { r } catch (error) { handler error }] *)
Definition try_catch {A} (r : result A) (handler : string -> result A) : result A :=
  match r with
  | Returned a => Returned a
  | Threw e => handler e
  end.

(** A local that may hold [null], [undefined] or a value. *)
Inductive jsval (A : Type) : Type :=
| JNull
| JUndefined
| JVal (a : A).
Arguments JNull {A}.
Arguments JUndefined {A}.
Arguments JVal {A} a.

(** [x !== null] *)
Definition not_null {A} (x : jsval A) : bool :=
  match x with
  | JNull => false
  | _ => true
  end.

(** [arr[i]] for a numeric index: [undefined] outside the array. *)
Definition index {A} (arr : list A) (i : Z) : jsval A :=
  if i <? 0 then JUndefined
  else match nth_error arr (Z.to_nat i) with
       | Some a => JVal a
       | None => JUndefined
       end.

(** [o || d] for an optional string: the empty string is falsy. *)
Definition or_string (o : option string) (d : string) : string :=
  match o with
  | Some s => if String.eqb s EmptyString then d else s
  | None => d
  end.

(** [o || d] for an optional integer: zero is falsy. *)
Definition or_Z (o : option Z) (d : Z) : Z :=
  match o with
  | Some z => if z =? 0 then d else z
  | None => d
  end.

(** [`${x}`] inside a template literal. *)
Definition template (x : option string) : string :=
  match x with
  | Some s => s
  | None => "undefined"
  end.

(** *** Numbers *)

Inductive number : Type :=
| NaN
| Num (q : Q).

Definition number_sub (a b : number) : number :=
  match a, b with
  | Num x, Num y => Num (x - y)
  | _, _ => NaN
  end.

(** The divisors of this program are [1e9] and powers of ten, never zero;
    the infinities are not represented and a zero divisor gives [NaN]. *)
Definition number_div (a b : number) : number :=
  match a, b with
  | Num x, Num y => if Qeq_bool y 0 then NaN else Num (x / y)
  | _, _ => NaN
  end.

(** [10 ** d] for an integer [d]. *)
Definition pow10 (d : Z) : number := Num (Qpower (inject_Z 10) d).

(** ToNumber on a local holding an integer: [null] is [0], [undefined] is
    [NaN]. *)
Definition toNumber (x : jsval Z) : number :=
  match x with
  | JNull => Num 0
  | JUndefined => NaN
  | JVal z => Num (inject_Z z)
  end.

Definition digit (c : ascii) : option Z :=
  let n := Z.of_nat (nat_of_ascii c) in
  if (48 <=? n) && (n <=? 57) then Some (n - 48) else None.

Fixpoint decimal (s : string) (acc : Z) : option Z :=
  match s with
  | EmptyString => Some acc
  | String c rest =>
      match digit c with
      | Some d => decimal rest (10 * acc + d)
      | None => None
      end
  end.

(** [Number(s)] in exact arithmetic, on the strings this program passes to
    it: raw token amounts, which the RPC node renders as unsigned decimal
    numerals.  The empty string is [0]; anything that is not a run of
    decimal digits is taken to [NaN].  [Double.Number] is the function on
    every string, with its rounding. *)
Definition Number (s : string) : number :=
  match decimal s 0 with
  | Some z => Num (inject_Z z)
  | None => NaN
  end.

(** *** Dates *)

(** [n] decimal digits of [z], most significant first. *)
Fixpoint pad (n : nat) (z : Z) : string :=
  match n with
  | O => EmptyString
  | S n' => pad n' (z / 10) ++ String (ascii_of_nat (Z.to_nat (48 + z mod 10))) EmptyString
  end.

(** Proleptic Gregorian date of a day number counted from 1970-01-01. *)
Definition civil (day : Z) : Z * Z * Z :=
  let z := day + 719468 in
  let era := z / 146097 in
  let doe := z - era * 146097 in
  let yoe := (doe - doe / 1460 + doe / 36524 - doe / 146096) / 365 in
  let doy := doe - (365 * yoe + yoe / 4 - yoe / 100) in
  let mp := (5 * doy + 2) / 153 in
  let d := doy - (153 * mp + 2) / 5 + 1 in
  let m := if mp <? 10 then mp + 3 else mp - 9 in
  let y := yoe + era * 400 + (if m <=? 2 then 1 else 0) in
  (y, m, d).

Definition year_string (y : Z) : string :=
  if (0 <=? y) && (y <=? 9999) then pad 4 y
  else if y <? 0 then "-" ++ pad 6 (- y)
  else "+" ++ pad 6 y.

(** [new Date(ms).toISOString()] for an integral time value [ms]
    (milliseconds since the epoch, UTC).  A [Date] holds time values up to
    8.64e15 in magnitude; this is the text for such a time value.  Beyond
    that magnitude JavaScript raises a RangeError, which
    [Exact.Date_toISOString] adds. *)
Definition toISOString (ms : Z) : string :=
  let '(y, m, d) := civil (ms / 86400000) in
  let t := ms mod 86400000 in
  year_string y ++ "-" ++ pad 2 m ++ "-" ++ pad 2 d ++ "T"
    ++ pad 2 (t / 3600000) ++ ":" ++ pad 2 (t / 60000 mod 60) ++ ":"
    ++ pad 2 (t / 1000 mod 60) ++ "." ++ pad 3 (t mod 1000) ++ "Z".

End JS.
Import JS.

Notation "x <- r ;; k" := (bind r (fun x => k))
  (at level 61, r at next level, right associativity).

(** ** The records of @solana/web3.js that the extractor reads

    Only the fields that [extractRelevantTxData] touches are kept.  A field
    is optional here whenever the code guards its use. *)

Record PublicKey : Type := { toBase58 : string }.

(** [MessageAccountKeys]: the flat, index-addressable key list, read through
    [get(i)] and [length]. *)
Definition MessageAccountKeys : Type := list PublicKey.

Definition get (accountKeys : MessageAccountKeys) (i : nat) : option PublicKey :=
  nth_error accountKeys i.

Record TokenAmount : Type := {
  amount : option string;
  decimals : option Z
}.

Record TokenBalance : Type := {
  mint : string;
  owner : option string;
  uiTokenAmount : option TokenAmount
}.

Record LoadedAddresses : Type := {
  writable : list PublicKey;
  readonly : list PublicKey
}.

Record ConfirmedTransactionMeta : Type := {
  preBalances : option (list Z);
  postBalances : option (list Z);
  preTokenBalances : option (list TokenBalance);
  postTokenBalances : option (list TokenBalance);
  loadedAddresses : option LoadedAddresses
}.

Record MessageCompiledInstruction : Type := {
  accountKeyIndexes : option (list nat)
}.

(** [getAccountKeys] is the outcome of the library call
    [message.getAccountKeys()], made without arguments: the key list it
    returns, or the error it throws (a version-0 message whose address table
    lookups are not resolved). *)
Record VersionedMessage : Type := {
  getAccountKeys : result MessageAccountKeys;
  staticAccountKeys : option (list PublicKey);
  compiledInstructions : option (list MessageCompiledInstruction)
}.

Record Transaction : Type := {
  message : option VersionedMessage;
  signatures : list string
}.

Record VersionedTransactionResponse : Type := {
  slot : Z;
  blockTime : option Z;
  transaction : Transaction;
  meta : option ConfirmedTransactionMeta
}.

(** The object literal returned at lines 344-353. *)
Module Summary.
Record t : Type := {
  signature : option string;
  solscanUrl : string;
  date : option string;
  sender : option PublicKey;
  receiver : option PublicKey;
  amount : option number;
  tokenMint : option string;
  slot : Z
}.
End Summary.

(** ** extractRelevantTxData, block by block *)

(** Line 277: [blockTime ? new Date(blockTime * 1000).toISOString() : null]. *)
Definition dateOf (blockTime : option Z) : option string :=
  match blockTime with
  | Some t => if t =? 0 then None else Some (toISOString (t * 1000))
  | None => None
  end.

(** [balances.find((b) => b.owner === walletAddress)] *)
Definition findOwner (balances : list TokenBalance) (walletAddress : string)
  : option TokenBalance :=
  find (fun b => match owner b with
                 | Some o => String.eqb o walletAddress
                 | None => false
                 end) balances.

(** Lines 279-289: the matched pre and post token balances. *)
Definition matchTokenBalances (meta : option ConfirmedTransactionMeta)
    (walletAddress : string) : option TokenBalance * option TokenBalance :=
  match meta with
  | Some m =>
      match preTokenBalances m, postTokenBalances m with
      | Some pre, Some post =>
          (findOwner pre walletAddress, findOwner post walletAddress)
      | _, _ => (None, None)
      end
  | None => (None, None)
  end.

(** Lines 291-299: the account-key resolver.  Full resolution is tried
    first; when it throws, the statically embedded keys are used. *)
Definition resolveAccountKeys (transaction : Transaction) : result MessageAccountKeys :=
  try_catch
    (match message transaction with
     | Some msg => getAccountKeys msg
     | None => Returned []%list
     end)
    (fun _ =>
       Returned (match message transaction with
                 | Some msg =>
                     match staticAccountKeys msg with
                     | Some keys => keys
                     | None => []%list
                     end
                 | None => []%list
                 end)).

(** Lines 305-311: the scan for the first key equal to the wallet address,
    [i] being the index of the head of [keys]; [-1] when there is none. *)
Fixpoint findAccountIndex (keys : list PublicKey) (i : Z) (walletAddress : string) : Z :=
  match keys with
  | nil => -1
  | key :: rest =>
      if String.eqb (toBase58 key) walletAddress then i
      else findAccountIndex rest (i + 1) walletAddress
  end.

(** Lines 301-316: the native balances of the wallet before and after. *)
Definition nativeBalances (meta : option ConfirmedTransactionMeta)
    (accountKeys : MessageAccountKeys) (walletAddress : string)
  : jsval Z * jsval Z :=
  match meta with
  | Some m =>
      let accountIndex := findAccountIndex accountKeys 0 walletAddress in
      if negb (accountIndex =? -1) then
        match preBalances m, postBalances m with
        | Some pre, Some post => (index pre accountIndex, index post accountIndex)
        | _, _ => (JNull, JNull)
        end
      else (JNull, JNull)
  | None => (JNull, JNull)
  end.

(** Lines 323-328: the loop over the compiled instructions, left at the first
    one that names more than one account. *)
Fixpoint findReceiver (accountKeys : MessageAccountKeys)
    (instructions : list MessageCompiledInstruction) : option PublicKey :=
  match instructions with
  | nil => None
  | ix :: rest =>
      match accountKeyIndexes ix with
      | Some (_ :: i1 :: _) => get accountKeys i1
      | _ => findReceiver accountKeys rest
      end
  end.

(** Lines 318-329: sender and receiver. *)
Definition counterparties (transaction : Transaction) (accountKeys : MessageAccountKeys)
  : option PublicKey * option PublicKey :=
  match message transaction with
  | Some msg =>
      (get accountKeys 0,
       findReceiver accountKeys
         (match compiledInstructions msg with
          | Some ixs => ixs
          | None => []%list
          end))
  | None => (None, None)
  end.

(** [Number(balance.uiTokenAmount?.amount || "0")] *)
Definition rawAmount (balance : TokenBalance) : number :=
  Number (or_string (match uiTokenAmount balance with
                     | Some ui => amount ui
                     | None => None
                     end) "0").

(** [balance.uiTokenAmount?.decimals || 0] *)
Definition decimalsOf (balance : TokenBalance) : Z :=
  or_Z (match uiTokenAmount balance with
        | Some ui => decimals ui
        | None => None
        end) 0.

Definition LAMPORTS : number := Num (inject_Z 1000000000).

(** Lines 331-342: the amount and the asset it is denominated in. *)
Definition amountAndMint (preTokenBalance postTokenBalance : option TokenBalance)
    (preBalance postBalance : jsval Z) : option number * option string :=
  match preTokenBalance, postTokenBalance with
  | Some preT, Some postT =>
      let pre := rawAmount preT in
      let post := rawAmount postT in
      (Some (number_div (number_sub post pre) (pow10 (decimalsOf preT))),
       Some (mint preT))
  | _, _ =>
      if not_null preBalance && not_null postBalance then
        (Some (number_div (number_sub (toNumber postBalance) (toNumber preBalance))
                 LAMPORTS),
         Some "SOL")
      else (None, None)
  end.

(** Lines 268-354. *)
Definition extractRelevantTxData (tx : option VersionedTransactionResponse)
    (walletAddress : string) : result (option Summary.t) :=
  match tx with
  | None => Returned None
  | Some tx =>
      let signature := nth_error (signatures (transaction tx)) 0 in
      let solscanUrl := "https://solscan.io/tx/" ++ template signature in
      let date := dateOf (blockTime tx) in
      let '(preTokenBalance, postTokenBalance) :=
        matchTokenBalances (meta tx) walletAddress in
      accountKeys <- resolveAccountKeys (transaction tx) ;;
      let '(preBalance, postBalance) :=
        nativeBalances (meta tx) accountKeys walletAddress in
      let '(sender, receiver) := counterparties (transaction tx) accountKeys in
      let '(amount, tokenMint) :=
        amountAndMint preTokenBalance postTokenBalance preBalance postBalance in
      Returned (Some {| Summary.signature := signature;
                        Summary.solscanUrl := solscanUrl;
                        Summary.date := date;
                        Summary.sender := sender;
                        Summary.receiver := receiver;
                        Summary.amount := amount;
                        Summary.tokenMint := tokenMint;
                        Summary.slot := slot tx |})
  end.

(** * The extractor, value for value

    The definitions above read the extractor with exact arithmetic, on
    records whose block time a [Date] holds, and without the difference
    between [null] and [undefined] in the fields of the summary.  The
    definitions of this part keep all three: numbers are IEEE 754 doubles,
    [toISOString] raises its RangeError, and every nullable field is a
    [jsval].  The blocks that do not touch these points
    ([matchTokenBalances], [resolveAccountKeys], [findAccountIndex],
    [nativeBalances], [decimalsOf]) are shared. *)

(** ** Doubles *)

Module Double.

(** A JavaScript number: a binary64 value of [SpecFloat], whose operations
    round to nearest, ties to even. *)
Definition double : Type := spec_float.
Definition prec : Z := 53.
Definition emax : Z := 1024.

(** The double nearest to an integer. *)
Definition of_Z (z : Z) : double := binary_normalize prec emax z 0 false.

(** [x - y] and [x / y] *)
Definition sub : double -> double -> double := SFsub prec emax.
Definition div : double -> double -> double := SFdiv prec emax.

(** The double nearest to [m * 10^e10], for [m >= 0], with the given sign. *)
Definition of_decimal (negative : bool) (m e10 : Z) : double :=
  match m with
  | Zpos p =>
      if 0 <=? e10 then
        binary_normalize prec emax (cond_Zopp negative (m * 10 ^ e10)) 0 false
      else
        SFdiv prec emax (S754_finite negative p 0)
          (S754_finite false (Z.to_pos (10 ^ (- e10))) 0)
  | _ => S754_zero negative
  end.

(** [10 ** d] for an integer [d].  ECMAScript leaves [**] to the accuracy of
    the implementation; the double nearest to the power is taken, which is
    the power itself for [0 <= d <= 22]. *)
Definition pow10 (d : Z) : double := of_decimal false 1 d.

(** The rational that a finite double stands for. *)
Definition value (x : double) : option Q :=
  match x with
  | S754_zero _ => Some 0%Q
  | S754_finite s m e =>
      Some (inject_Z (cond_Zopp s (Zpos m)) * Qpower (inject_Z 2) e)%Q
  | _ => None
  end.

(** *** Number(string)

    A string is held as the UTF-8 encoding of its text.  The grammar is the
    StringNumericLiteral of ECMAScript: white space around an optional
    literal, which is [Infinity], a decimal literal with optional sign,
    fraction and exponent, or an unsigned binary, octal or hexadecimal
    integer. *)

Definition code (c : ascii) : Z := Z.of_nat (nat_of_ascii c).

Definition digit_in (base : Z) (c : ascii) : option Z :=
  let n := code c in
  let v := if (48 <=? n) && (n <=? 57) then n - 48
           else if (97 <=? n) && (n <=? 102) then n - 87
           else if (65 <=? n) && (n <=? 70) then n - 55
           else 99 in
  if v <? base then Some v else None.

(** The longest run of digits at the head of [s]: its value on top of
    [acc], its length on top of [count], and what follows it. *)
Fixpoint digits (base : Z) (s : string) (acc : Z) (count : Z) : Z * Z * string :=
  match s with
  | String c rest =>
      match digit_in base c with
      | Some d => digits base rest (base * acc + d) (count + 1)
      | None => (acc, count, s)
      end
  | EmptyString => (acc, count, s)
  end.

(** One white space or line terminator at the head of [s]: U+0009 to
    U+000D, U+0020, U+00A0, U+1680, U+2000 to U+200A, U+2028, U+2029,
    U+202F, U+205F, U+3000, U+FEFF. *)
Definition white_space (s : string) : option string :=
  match s with
  | String c1 r1 =>
      let n1 := code c1 in
      if (9 <=? n1) && (n1 <=? 13) || (n1 =? 32) then Some r1
      else
        match r1 with
        | String c2 r2 =>
            let n2 := code c2 in
            if (n1 =? 194) && (n2 =? 160) then Some r2
            else
              match r2 with
              | String c3 r3 =>
                  let n3 := code c3 in
                  if (n1 =? 225) && (n2 =? 154) && (n3 =? 128)
                     || (n1 =? 226) && (n2 =? 128)
                        && ((128 <=? n3) && (n3 <=? 138) || (n3 =? 168) || (n3 =? 169)
                            || (n3 =? 175))
                     || (n1 =? 226) && (n2 =? 129) && (n3 =? 159)
                     || (n1 =? 227) && (n2 =? 128) && (n3 =? 128)
                     || (n1 =? 239) && (n2 =? 187) && (n3 =? 191)
                  then Some r3 else None
              | EmptyString => None
              end
        | EmptyString => None
        end
  | EmptyString => None
  end.

Fixpoint trim_start (fuel : nat) (s : string) : string :=
  match fuel with
  | O => s
  | S fuel' =>
      match white_space s with
      | Some rest => trim_start fuel' rest
      | None => s
      end
  end.

(** Nothing but white space. *)
Definition blank (s : string) : bool :=
  String.eqb (trim_start (String.length s) s) EmptyString.

(** An optional exponent part, up to the end of the literal. *)
Definition exponent (s : string) : option Z :=
  match s with
  | String c rest =>
      if (code c =? 101) || (code c =? 69) then
        let '(negative, rest') :=
          match rest with
          | String c' r' =>
              if code c' =? 43 then (false, r')
              else if code c' =? 45 then (true, r')
              else (false, rest)
          | EmptyString => (false, rest)
          end in
        let '(e, count, tail) := digits 10 rest' 0 0 in
        if (0 <? count) && blank tail then Some (cond_Zopp negative e) else None
      else if blank s then Some 0 else None
  | EmptyString => Some 0
  end.

Definition unsigned_decimal (negative : bool) (s : string) : double :=
  let '(m1, n1, r1) := digits 10 s 0 0 in
  match r1 with
  | String "."%char r2 =>
      let '(m2, n2, r3) := digits 10 r2 m1 0 in
      if 0 <? n1 + n2 then
        match exponent r3 with
        | Some e => of_decimal negative m2 (e - n2)
        | None => S754_nan
        end
      else S754_nan
  | _ =>
      if 0 <? n1 then
        match exponent r1 with
        | Some e => of_decimal negative m1 e
        | None => S754_nan
        end
      else S754_nan
  end.

Fixpoint strip_prefix (p s : string) : option string :=
  match p with
  | EmptyString => Some s
  | String a p' =>
      match s with
      | String b s' => if Ascii.eqb a b then strip_prefix p' s' else None
      | EmptyString => None
      end
  end.

Definition infinity_or_decimal (negative : bool) (s : string) : double :=
  match strip_prefix "Infinity" s with
  | Some rest => if blank rest then S754_infinity negative else S754_nan
  | None => unsigned_decimal negative s
  end.

Definition non_decimal (base : Z) (s : string) : double :=
  let '(v, count, tail) := digits base s 0 0 in
  if (0 <? count) && blank tail then of_Z v else S754_nan.

Definition Number (s : string) : double :=
  match trim_start (String.length s) s with
  | EmptyString => S754_zero false
  | String c1 r1 as t =>
      match r1 with
      | String c2 r2 =>
          if (code c1 =? 48) && ((code c2 =? 120) || (code c2 =? 88)) then non_decimal 16 r2
          else if (code c1 =? 48) && ((code c2 =? 111) || (code c2 =? 79)) then
            non_decimal 8 r2
          else if (code c1 =? 48) && ((code c2 =? 98) || (code c2 =? 66)) then
            non_decimal 2 r2
          else if code c1 =? 43 then infinity_or_decimal false r1
          else if code c1 =? 45 then infinity_or_decimal true r1
          else infinity_or_decimal false t
      | EmptyString => infinity_or_decimal false t
      end
  end.

End Double.

(** ** extractRelevantTxData (lines 268-354) *)

Module Exact.

Module Summary.
Record t : Type := {
  signature : jsval string;
  solscanUrl : string;
  date : jsval string;
  sender : jsval PublicKey;
  receiver : jsval PublicKey;
  amount : jsval Double.double;
  tokenMint : jsval string;
  slot : Z
}.
End Summary.

(** [`${x}`] inside a template literal. *)
Definition template (x : jsval string) : string :=
  match x with
  | JVal s => s
  | JUndefined => "undefined"
  | JNull => "null"
  end.

(** A [Date] holds a time value of at most 8.64e15 milliseconds in
    magnitude. *)
Definition validTime (ms : Z) : bool := Z.abs ms <=? 8640000000000000.

(** [new Date(ms).toISOString()]: the text of a valid date, a RangeError
    for an invalid one. *)
Definition Date_toISOString (ms : Z) : result string :=
  if validTime ms then Returned (toISOString ms) else Threw "Invalid time value".

(** Line 277. *)
Definition dateOf (blockTime : option Z) : result (jsval string) :=
  match blockTime with
  | Some t =>
      if t =? 0 then Returned JNull
      else iso <- Date_toISOString (t * 1000) ;; Returned (JVal iso)
  | None => Returned JNull
  end.

(** [accountKeys.get(i)]: [undefined] past the end of the list. *)
Definition get (accountKeys : MessageAccountKeys) (i : nat) : jsval PublicKey :=
  match nth_error accountKeys i with
  | Some k => JVal k
  | None => JUndefined
  end.

(** Lines 323-328; [receiver] starts as [null] (line 319). *)
Fixpoint findReceiver (accountKeys : MessageAccountKeys)
    (instructions : list MessageCompiledInstruction) : jsval PublicKey :=
  match instructions with
  | nil => JNull
  | ix :: rest =>
      match accountKeyIndexes ix with
      | Some (_ :: i1 :: _) => get accountKeys i1
      | _ => findReceiver accountKeys rest
      end
  end.

(** Lines 318-329. *)
Definition counterparties (transaction : Transaction) (accountKeys : MessageAccountKeys)
  : jsval PublicKey * jsval PublicKey :=
  match message transaction with
  | Some msg =>
      (get accountKeys 0,
       findReceiver accountKeys
         (match compiledInstructions msg with
          | Some ixs => ixs
          | None => []%list
          end))
  | None => (JNull, JNull)
  end.

(** ToNumber on a balance: [null] is [+0], [undefined] is [NaN], a number of
    the array is the double it is held as. *)
Definition toNumber (x : jsval Z) : Double.double :=
  match x with
  | JNull => S754_zero false
  | JUndefined => S754_nan
  | JVal z => Double.of_Z z
  end.

(** [Number(balance.uiTokenAmount?.amount || "0")] *)
Definition rawAmount (balance : TokenBalance) : Double.double :=
  Double.Number (or_string (match uiTokenAmount balance with
                            | Some ui => amount ui
                            | None => None
                            end) "0").

(** Lines 331-342. *)
Definition amountAndMint (preTokenBalance postTokenBalance : option TokenBalance)
    (preBalance postBalance : jsval Z) : jsval Double.double * jsval string :=
  match preTokenBalance, postTokenBalance with
  | Some preT, Some postT =>
      let pre := rawAmount preT in
      let post := rawAmount postT in
      (JVal (Double.div (Double.sub post pre) (Double.pow10 (decimalsOf preT))),
       JVal (mint preT))
  | _, _ =>
      if not_null preBalance && not_null postBalance then
        (JVal (Double.div (Double.sub (toNumber postBalance) (toNumber preBalance))
                 (Double.of_Z 1000000000)),
         JVal "SOL")
      else (JNull, JNull)
  end.

(** Lines 268-354. *)
Definition extractRelevantTxData (tx : option VersionedTransactionResponse)
    (walletAddress : string) : result (option Summary.t) :=
  match tx with
  | None => Returned None
  | Some tx =>
      let signature := index (signatures (transaction tx)) 0 in
      let solscanUrl := "https://solscan.io/tx/" ++ template signature in
      date <- dateOf (blockTime tx) ;;
      let '(preTokenBalance, postTokenBalance) :=
        matchTokenBalances (meta tx) walletAddress in
      accountKeys <- resolveAccountKeys (transaction tx) ;;
      let '(preBalance, postBalance) :=
        nativeBalances (meta tx) accountKeys walletAddress in
      let '(sender, receiver) := counterparties (transaction tx) accountKeys in
      let '(amount, tokenMint) :=
        amountAndMint preTokenBalance postTokenBalance preBalance postBalance in
      Returned (Some {| Summary.signature := signature;
                        Summary.solscanUrl := solscanUrl;
                        Summary.date := date;
                        Summary.sender := sender;
                        Summary.receiver := receiver;
                        Summary.amount := amount;
                        Summary.tokenMint := tokenMint;
                        Summary.slot := slot tx |})
  end.

End Exact.

(** ** Vocabulary of the specification *)

(** [b] is the first entry of [balances] owned by [walletAddress]. *)
Definition firstOwned (balances : list TokenBalance) (walletAddress : string)
    (b : TokenBalance) : Prop :=
  exists before after,
    balances = (before ++ b :: after)%list /\
    owner b = Some walletAddress /\
    Forall (fun c => owner c <> Some walletAddress) before.

(** [i] is the first index of [keys] whose address is [walletAddress]. *)
Definition firstIndexOf (keys : list PublicKey) (walletAddress : string) (i : nat) : Prop :=
  (exists k, nth_error keys i = Some k /\ toBase58 k = walletAddress) /\
  forall j k, (j < i)%nat -> nth_error keys j = Some k -> toBase58 k <> walletAddress.

(** The raw amount of a token balance as the code holds it, [+0] when the
    field is missing. *)
Definition rawDouble (b : TokenBalance) : Double.double :=
  match uiTokenAmount b with
  | Some ui =>
      match amount ui with
      | Some s => Double.Number s
      | None => S754_zero false
      end
  | None => S754_zero false
  end.

(** The raw amount of a token balance as the integer its decimal numeral
    denotes, [0] when the field is missing. *)
Definition rawInteger (b : TokenBalance) : option Z :=
  match uiTokenAmount b with
  | Some ui =>
      match amount ui with
      | Some s => decimal s 0
      | None => Some 0
      end
  | None => Some 0
  end.

(** The decimal places of a token balance, [0] when absent. *)
Definition spec_decimals (b : TokenBalance) : Z :=
  match uiTokenAmount b with
  | Some ui =>
      match decimals ui with
      | Some d => d
      | None => 0
      end
  | None => 0
  end.




(** The amount that the token path has in exact arithmetic: the difference
    of the two raw amounts over [10^decimals]. *)
Definition exactTokenAmount (preT postT : TokenBalance) : option Q :=
  match rawInteger preT, rawInteger postT with
  | Some a, Some b =>
      Some ((inject_Z b - inject_Z a) / Qpower (inject_Z 10) (spec_decimals preT))%Q
  | _, _ => None
  end.

(** The block time of [tx], when it has one, is a time that a [Date] holds. *)
Definition inRange (tx : VersionedTransactionResponse) : bool :=
  match blockTime tx with
  | Some t => Exact.validTime (t * 1000)
  | None => true
  end.

(** The date of a record whose block time is in range (line 277). *)
Definition dateIn (tx : VersionedTransactionResponse) : jsval string :=
  match blockTime tx with
  | Some t => if t =? 0 then JNull else JVal (toISOString (t * 1000))
  | None => JNull
  end.

(** The summary that lines 275-353 assemble from [tx] for [walletAddress]
    out of a date and a resolved key list. *)
Definition summaryOf (tx : VersionedTransactionResponse) (walletAddress : string)
    (date : jsval string) (accountKeys : MessageAccountKeys) : Exact.Summary.t :=
  let tokens := matchTokenBalances (meta tx) walletAddress in
  let natives := nativeBalances (meta tx) accountKeys walletAddress in
  let parties := Exact.counterparties (transaction tx) accountKeys in
  let result := Exact.amountAndMint (fst tokens) (snd tokens) (fst natives) (snd natives) in
  {| Exact.Summary.signature := index (signatures (transaction tx)) 0;
     Exact.Summary.solscanUrl :=
       "https://solscan.io/tx/" ++ Exact.template (index (signatures (transaction tx)) 0);
     Exact.Summary.date := date;
     Exact.Summary.sender := fst parties;
     Exact.Summary.receiver := snd parties;
     Exact.Summary.amount := fst result;
     Exact.Summary.tokenMint := snd result;
     Exact.Summary.slot := slot tx |}.

(** [null] and [undefined] taken together. *)
Definition erase {A} (x : jsval A) : option A :=
  match x with
  | JVal a => Some a
  | _ => None
  end.

(** ** Sample transactions *)

Definition W : string := "Wa11et".

Definition key (s : string) : PublicKey := {| toBase58 := s |}.

Definition tokenBalance (o m a : string) (d : Z) : TokenBalance :=
  {| mint := m;
     owner := Some o;
     uiTokenAmount := Some {| amount := Some a; decimals := Some d |} |}.

Definition legacyMessage (keys : list PublicKey)
    (ixs : list (list nat)) : VersionedMessage :=
  {| getAccountKeys := Returned keys;
     staticAccountKeys := Some keys;
     compiledInstructions :=
       Some (map (fun l => {| accountKeyIndexes := Some l |}) ixs) |}.

(** A token transfer into the wallet whose native balance moves as well. *)
Definition tokenMeta : ConfirmedTransactionMeta :=
  {| preBalances := Some [5000000000; 0]%list;
     postBalances := Some [4999995000; 0]%list;
     preTokenBalances :=
       Some [tokenBalance "Other" "MintB" "7" 2; tokenBalance W "MintA" "1000000" 6]%list;
     postTokenBalances :=
       Some [tokenBalance W "MintA" "1500000" 6; tokenBalance "Other" "MintB" "7" 2]%list;
     loadedAddresses := None |}.

Definition tokenTx : VersionedTransactionResponse :=
  {| slot := 250000000;
     blockTime := Some 1700000000;
     transaction :=
       {| message := Some (legacyMessage [key W; key "Other"] [[0; 1]%nat]%list);
          signatures := ["5sig"]%list |};
     meta := Some tokenMeta |}.

(** A native transfer out of the wallet: one unit of the native coin. *)
Definition nativeMeta : ConfirmedTransactionMeta :=
  {| preBalances := Some [5000000000; 100]%list;
     postBalances := Some [4000000000; 1000000100]%list;
     preTokenBalances := Some []%list;
     postTokenBalances := Some []%list;
     loadedAddresses := None |}.

Definition nativeTx : VersionedTransactionResponse :=
  {| slot := 250000001;
     blockTime := Some 1700000000;
     transaction :=
       {| message := Some (legacyMessage [key W; key "Other"] [[0; 1]%nat]%list);
          signatures := ["4sig"]%list |};
     meta := Some nativeMeta |}.



(** Eight accounts; a one-account instruction, then one over the indexes
    2, 5 and 7, then a later one over 1 and 3. *)
Definition eightKeys : list PublicKey :=
  [key "A0"; key "A1"; key "A2"; key "A3"; key "A4"; key "A5"; key "A6"; key "A7"]%list.

Definition heuristicTx : VersionedTransactionResponse :=
  {| slot := 250000003;
     blockTime := Some 1700000000;
     transaction :=
       {| message :=
            Some (legacyMessage eightKeys [[0]; [2; 5; 7]; [1; 3]]%nat%list);
          signatures := ["2sig"]%list |};
     meta := None |}.

(** A record stamped with the first second of the epoch. *)
Definition epochTx : VersionedTransactionResponse :=
  {| slot := 0;
     blockTime := Some 0;
     transaction := {| message := None; signatures := ["1sig"]%list |};
     meta := None |}.



(** The wallet holds a token account after the transaction only, and pays
    for it in the native coin. *)
Definition openingTx : VersionedTransactionResponse :=
  {| slot := 250000005;
     blockTime := Some 1700000000;
     transaction :=
       {| message := Some (legacyMessage [key W; key "Other"] [[0; 1]%nat]%list);
          signatures := ["7sig"]%list |};
     meta := Some {| preBalances := Some [3000000000; 0]%list;
                     postBalances := Some [2000000000; 0]%list;
                     preTokenBalances := Some []%list;
                     postTokenBalances := Some [tokenBalance W "MintA" "25" 0]%list;
                     loadedAddresses := None |} |}.




(** A token account that holds 2^53 + 1 raw units before the transaction
    and 2^53 after it, of a mint with 9 decimal places. *)
Definition roundingTx : VersionedTransactionResponse :=
  {| slot := 250000008;
     blockTime := Some 1700000000;
     transaction :=
       {| message := Some (legacyMessage [key W; key "Other"] [[0; 1]%nat]%list);
          signatures := ["9sig"]%list |};
     meta := Some {| preBalances := Some [5000000000; 0]%list;
                     postBalances := Some [4999995000; 0]%list;
                     preTokenBalances :=
                       Some [tokenBalance W "MintA" "9007199254740993" 9]%list;
                     postTokenBalances :=
                       Some [tokenBalance W "MintA" "9007199254740992" 9]%list;
                     loadedAddresses := None |} |}.

(** The native transfer again, stamped with the last second that a [Date]
    holds, and with the second after it. *)
Definition lastSecondTx : VersionedTransactionResponse :=
  {| slot := 250000009;
     blockTime := Some 8640000000000;
     transaction := transaction nativeTx;
     meta := meta nativeTx |}.

Definition lateTx : VersionedTransactionResponse :=
  {| slot := 250000010;
     blockTime := Some 8640000000001;
     transaction := transaction nativeTx;
     meta := meta nativeTx |}.

(** The late record without metadata. *)
Definition lateTxNoMeta : VersionedTransactionResponse :=
  {| slot := 250000011;
     blockTime := Some 8640000000001;
     transaction := transaction nativeTx;
     meta := None |}.

(** A record whose message resolves to no account key at all. *)
Definition keylessTx : VersionedTransactionResponse :=
  {| slot := 250000012;
     blockTime := Some 1700000000;
     transaction :=
       {| message := Some (legacyMessage []%list [[0; 1]%nat]%list);
          signatures := ["10sig"]%list |};
     meta := None |}.

(** * The tool handlers

    The rest of src/src/index.ts: the argument schemas, the Coral Protocol
    client, the two tool handlers and the request dispatcher.  Whatever the
    code obtains from outside (environment variables, the RPC node, the
    Coral server, the text renderings of the libraries) is a field of
    [Env]; the handlers are functions of it. *)

(** ** JSON values and the argument schemas (lines 188-221) *)

#[warnings="-register-all"]
Inductive json : Type :=
| JsonNull
| JsonBool (b : bool)
| JsonNumber (n : Q)
| JsonString (s : string)
| JsonArray (items : list json)
| JsonObject (fields : list (string * json)).

(** [object.key]: [None] is [undefined]. *)
Fixpoint property (fields : list (string * json)) (k : string) : option json :=
  match fields with
  | nil => None
  | (k', v) :: rest => if String.eqb k' k then Some v else property rest k
  end.

(** The zod parsers the schemas are built from.  The outer [option] is the
    verdict of the parser, [None] for a failed parse. *)
Definition z_object (v : option json) : option (list (string * json)) :=
  match v with
  | Some (JsonObject fields) => Some fields
  | _ => None
  end.

Definition z_string (v : option json) : option string :=
  match v with
  | Some (JsonString s) => Some s
  | _ => None
  end.

Definition z_number (v : option json) : option Q :=
  match v with
  | Some (JsonNumber n) => Some n
  | _ => None
  end.

Fixpoint strings (items : list json) : option (list string) :=
  match items with
  | nil => Some nil
  | JsonString s :: rest =>
      match strings rest with
      | Some l => Some (s :: l)
      | None => None
      end
  | _ :: _ => None
  end.

(** [z.array(z.string())] *)
Definition z_array_string (v : option json) : option (list string) :=
  match v with
  | Some (JsonArray items) => strings items
  | _ => None
  end.

(** [z.enum(values)] *)
Definition z_enum (values : list string) (v : option json) : option string :=
  match v with
  | Some (JsonString s) => if existsb (String.eqb s) values then Some s else None
  | _ => None
  end.

(** [inner.optional()]: [undefined] passes as it is. *)
Definition z_optional {A} (inner : option json -> option A) (v : option json)
  : option (option A) :=
  match v with
  | None => Some None
  | Some _ =>
      match inner v with
      | Some a => Some (Some a)
      | None => None
      end
  end.

(** [z.any()] *)
Definition z_any (v : option json) : option (option json) := Some v.

Inductive Schema : Type :=
| FetchSolanaTransactionsArgs
| CoralSessionArgs
| CoralThreadArgs
| CoralMessageArgs
| CoralDiscoverArgs.

Module FetchArgs.
Record t : Type := { walletAddress : string; limit : Q }.
End FetchArgs.

(** [s.length]: the number of UTF-16 code units of the text whose UTF-8
    encoding is [s].  A byte that continues a sequence counts for nothing,
    the first byte of a four-byte sequence for two (a surrogate pair), and
    every other byte for one. *)
Fixpoint utf16_length (s : string) : nat :=
  match s with
  | EmptyString => O
  | String c rest =>
      let n := nat_of_ascii c in
      ((if (128 <=? n) && (n <=? 191) then 0 else if 240 <=? n then 2 else 1)
       + utf16_length rest)%nat
  end.

(** Lines 188-194.  [min] and [max] compare the [length] of the string;
    [z.number().optional().default(100)]: an absent limit is replaced by
    100 before the inner parser sees it. *)
Definition FetchSolanaTransactionsArgsSchema (args : option json) : option FetchArgs.t :=
  match z_object args with
  | Some o =>
      match z_string (property o "walletAddress"),
            (match property o "limit" with
             | None => Some (inject_Z 100)
             | Some v => z_number (Some v)
             end) with
      | Some w, Some l =>
          if (42 <=? utf16_length w)%nat && (utf16_length w <=? 44)%nat
          then Some {| FetchArgs.walletAddress := w; FetchArgs.limit := l |}
          else None
      | _, _ => None
      end
  | None => None
  end.

Module SessionArgs.
Record t : Type := { sessionName : option string; description : option string }.
End SessionArgs.

(** Lines 203-206. *)
Definition CoralSessionArgsSchema (args : option json) : option SessionArgs.t :=
  match z_object args with
  | Some o =>
      match z_optional z_string (property o "sessionName"),
            z_optional z_string (property o "description") with
      | Some n, Some d => Some {| SessionArgs.sessionName := n; SessionArgs.description := d |}
      | _, _ => None
      end
  | None => None
  end.

Module ThreadArgs.
Record t : Type := { sessionId : string; participants : option (list string) }.
End ThreadArgs.

(** Lines 208-211. *)
Definition CoralThreadArgsSchema (args : option json) : option ThreadArgs.t :=
  match z_object args with
  | Some o =>
      match z_string (property o "sessionId"),
            z_optional z_array_string (property o "participants") with
      | Some s, Some p => Some {| ThreadArgs.sessionId := s; ThreadArgs.participants := p |}
      | _, _ => None
      end
  | None => None
  end.

Module MessageArgs.
Record t : Type := {
  threadId : string;
  content : option json;
  messageType : option string
}.
End MessageArgs.

(** Lines 213-217. *)
Definition CoralMessageArgsSchema (args : option json) : option MessageArgs.t :=
  match z_object args with
  | Some o =>
      match z_string (property o "threadId"),
            z_any (property o "content"),
            z_optional (z_enum ["request"; "response"; "notification"]%list)
              (property o "messageType") with
      | Some t, Some c, Some m =>
          Some {| MessageArgs.threadId := t; MessageArgs.content := c;
                  MessageArgs.messageType := m |}
      | _, _, _ => None
      end
  | None => None
  end.

Module DiscoverArgs.
Record t : Type := { capabilities : option (list string) }.
End DiscoverArgs.

(** Lines 219-221. *)
Definition CoralDiscoverArgsSchema (args : option json) : option DiscoverArgs.t :=
  match z_object args with
  | Some o =>
      match z_optional z_array_string (property o "capabilities") with
      | Some c => Some {| DiscoverArgs.capabilities := c |}
      | None => None
      end
  | None => None
  end.

(** ** The Coral Protocol records (lines 20-69) *)

Module CoralActor.
Record t : Type := { id : string }.
End CoralActor.

Module CoralThread.
Record t : Type := { id : string }.
End CoralThread.

Module CoralMessage.
Record t : Type := { id : string }.
End CoralMessage.

Module CoralSession.
Record t : Type := {
  id : string;
  status : string;
  participants : list CoralActor.t;
  threads : list CoralThread.t;
  created_at : string
}.
End CoralSession.

Module Pricing.
Record t : Type := { model : string; amount : option Q }.
End Pricing.

Module CoralAgentAdvertisement.
Record t : Type := {
  id : string;
  name : string;
  description : string;
  capabilities : list string;
  framework : string;
  pricing : option Pricing.t
}.
End CoralAgentAdvertisement.

(** ** What the handlers obtain from outside *)

Module Http.
Record Request : Type := {
  url : string;
  method : option string;
  headers : list (string * string);
  body : option string
}.
Record Response (A : Type) : Type := {
  ok : bool;
  status : Z;
  statusText : string;
  json : result A
}.
Arguments ok {A} _.
Arguments status {A} _.
Arguments statusText {A} _.
Arguments json {A} _.
End Http.

(** The [options] argument of [makeRequest]. *)
Record RequestInit : Type := {
  init_method : option string;
  init_body : option string;
  init_headers : option (list (string * string))
}.

Record Env : Type := {
  (** [process.env] *)
  CORAL_SERVER_URL : option string;
  CORAL_API_KEY : option string;
  (** [JSON.stringify(v)], [JSON.stringify(v, null, 2)] and the same for the
      list of summaries, whose keys hold library objects *)
  JSON_stringify : json -> string;
  JSON_stringify_indented : json -> string;
  JSON_stringify_summaries : list (option Exact.Summary.t) -> string;
  (** the text of the [ZodError] that [schema.safeParse(args)] reports *)
  ZodError_toString : Schema -> option json -> string;
  (** [fetch], at the response type each caller declares; a rejected
      promise is [Threw] *)
  fetch_session : Http.Request -> result (Http.Response CoralSession.t);
  fetch_sessions : Http.Request -> result (Http.Response (list CoralSession.t));
  fetch_thread : Http.Request -> result (Http.Response CoralThread.t);
  fetch_message : Http.Request -> result (Http.Response CoralMessage.t);
  fetch_agents : Http.Request -> result (Http.Response (list CoralAgentAdvertisement.t));
  fetch_advertisement : Http.Request -> result (Http.Response CoralAgentAdvertisement.t);
  (** [new Connection(process.env.RPC_URL || clusterApiUrl("mainnet-beta"))] *)
  newConnection : result unit;
  (** [new PublicKey(walletAddress)] *)
  newPublicKey : string -> result PublicKey;
  (** [connection.getSignaturesForAddress(pubkey, { limit })], each entry
      reduced to its [signature] *)
  getSignaturesForAddress : PublicKey -> Q -> result (list string);
  (** [connection.getTransaction(signature, ...)] *)
  getTransaction : string -> result (option VersionedTransactionResponse);
  (** of the rejections pending in one [Promise.all], the reason of the one
      that settles first *)
  firstRejection : list string -> string
}.

(** [`${n}`] for an integer. *)
Definition Z_toString (n : Z) : string := NilZero.string_of_int (Z.to_int n).

Definition dquote : string := String (ascii_of_nat 34) EmptyString.
Definition newline : string := String (ascii_of_nat 10) EmptyString.

(** [items.join(separator)] *)
Fixpoint join (separator : string) (items : list string) : string :=
  match items with
  | nil => EmptyString
  | s :: nil => s
  | s :: rest => s ++ separator ++ join separator rest
  end.

(** [o || d] where [o] may be an empty string or missing and the result may
    stay missing. *)
Definition or_option (o d : option string) : option string :=
  match o with
  | Some s => if String.eqb s EmptyString then d else Some s
  | None => d
  end.

(** ** CoralProtocolClient (lines 71-186) *)

Record CoralProtocolClient : Type := {
  baseUrl : string;
  apiKey : option string
}.

(** Lines 75-78, as called at line 200: [new CoralProtocolClient()]. *)
Definition coralClient (env : Env) : CoralProtocolClient :=
  {| baseUrl := or_string (CORAL_SERVER_URL env) "http://localhost:5555";
     apiKey := or_option None (CORAL_API_KEY env) |}.

Definition noOptions : RequestInit :=
  {| init_method := None; init_body := None; init_headers := None |}.

Definition post (body : string) : RequestInit :=
  {| init_method := Some "POST"; init_body := Some body; init_headers := None |}.

(** Lines 81-88: the second argument of [fetch].  The spread of [options]
    comes last, so a [headers] entry of [options] replaces the merged
    headers as a whole. *)
Definition requestOf (client : CoralProtocolClient) (endpoint : string)
    (options : RequestInit) : Http.Request :=
  {| Http.url := baseUrl client ++ endpoint;
     Http.method := init_method options;
     Http.headers :=
       match init_headers options with
       | Some h => h
       | None =>
           (("Content-Type", "application/json") ::
            match apiKey client with
            | Some k =>
                if String.eqb k EmptyString then nil
                else [("Authorization", ("Bearer " ++ k)%string)]%list
            | None => nil
            end)%list
       end;
     Http.body := init_body options |}.

(** Lines 80-95. *)
Definition makeRequest {A} (fetch : Http.Request -> result (Http.Response A))
    (client : CoralProtocolClient) (endpoint : string) (options : RequestInit)
  : result A :=
  response <- fetch (requestOf client endpoint options) ;;
  if negb (Http.ok response) then
    Threw ("Coral Protocol API error: " ++ Z_toString (Http.status response)
             ++ " " ++ Http.statusText response)
  else Http.json response.

(** Lines 98-108. *)
Definition createSession (env : Env) (client : CoralProtocolClient)
    (name description : option string) : result CoralSession.t :=
  makeRequest (fetch_session env) client "/sessions"
    (post (JSON_stringify env
             (JsonObject
                [("name", JsonString (or_string name "Solana Transaction Analysis Session"));
                 ("description",
                  JsonString (or_string description
                    "AI-powered Solana blockchain transaction analysis using MCP"));
                 ("privacy_level", JsonString "application_controlled");
                 ("max_participants", JsonNumber (inject_Z 10))]%list))).

(** Lines 110-112. *)
Definition getSessions (env : Env) (client : CoralProtocolClient)
  : result (list CoralSession.t) :=
  makeRequest (fetch_sessions env) client "/sessions" noOptions.

(** Lines 119-128. *)
Definition createThread (env : Env) (client : CoralProtocolClient)
    (sessionId : string) (participants : list string) : result CoralThread.t :=
  makeRequest (fetch_thread env) client "/threads"
    (post (JSON_stringify env
             (JsonObject
                [("session_id", JsonString sessionId);
                 ("participants", JsonArray (map JsonString participants));
                 ("thread_type", JsonString "collaboration")]%list))).

(** Lines 130-140.  A property holding [undefined] is left out of the
    serialised object. *)
Definition sendMessage (env : Env) (client : CoralProtocolClient)
    (threadId : string) (content : option json) (messageType : string)
  : result CoralMessage.t :=
  makeRequest (fetch_message env) client "/messages"
    (post (JSON_stringify env
             (JsonObject
                ([("thread_id", JsonString threadId)] ++
                 match content with
                 | Some c => [("content", c)]
                 | None => nil
                 end ++
                 [("message_type", JsonString messageType);
                  ("sender_id", JsonString "solana-mcp-agent")])%list))).

(** Lines 147-150.  An array is truthy even when empty. *)
Definition discoverAgents (env : Env) (client : CoralProtocolClient)
    (capabilities : option (list string)) : result (list CoralAgentAdvertisement.t) :=
  let params :=
    match capabilities with
    | Some l => "?capabilities=" ++ join "," l
    | None => EmptyString
    end in
  makeRequest (fetch_agents env) client ("/agents/discover" ++ params) noOptions.

(** [{ ...base, ...over }] on the fields of two objects. *)
Fixpoint assign (base : list (string * json)) (k : string) (v : json)
  : list (string * json) :=
  match base with
  | nil => [(k, v)]%list
  | (k', v') :: rest =>
      if String.eqb k' k then ((k, v) :: rest)%list
      else ((k', v') :: assign rest k v)%list
  end.

Definition spread (base over : list (string * json)) : list (string * json) :=
  fold_left (fun acc kv => assign acc (fst kv) (snd kv)) over base.

(** Lines 158-177: the advertisement that is sent when nothing overrides it. *)
Definition defaultAdvertisement : list (string * json) :=
  [("id", JsonString "solana-mcp-agent");
   ("name", JsonString "Solana MCP Agent");
   ("description",
    JsonString "Solana blockchain transaction analysis and wallet insights");
   ("capabilities",
    JsonArray [JsonString "solana_transaction_analysis"; JsonString "wallet_history";
               JsonString "blockchain_data"; JsonString "defi_insights"]);
   ("framework", JsonString "mcp");
   ("pricing",
    JsonObject [("model", JsonString "per_use"); ("amount", JsonNumber (inject_Z 0))]);
   ("metadata",
    JsonObject [("version", JsonString "1.0.0");
                ("author", JsonString "Coral Agent Team");
                ("tags", JsonArray [JsonString "solana"; JsonString "blockchain";
                                      JsonString "defi"; JsonString "mcp"])])]%list.

(** Lines 157-185. *)
Definition advertiseAgent (env : Env) (client : CoralProtocolClient)
    (advertisement : list (string * json)) : result CoralAgentAdvertisement.t :=
  makeRequest (fetch_advertisement env) client "/agents/advertise"
    (post (JSON_stringify env (JsonObject (spread defaultAdvertisement advertisement)))).

(** ** The tool list and the results (lines 223-266) *)

Module Tool.
Record t : Type := { name : string; description : string }.
End Tool.

(** Lines 223-266, without the [inputSchema] entries. *)
Definition solanaTools : list Tool.t :=
  [{| Tool.name := "fetch_solana_transactions";
      Tool.description := "Fetches the recent Solana transaction history for a given wallet address. Returns transaction amounts, sender/receiver addresses, and Solscan links." |};
   {| Tool.name := "create_coral_session";
      Tool.description := "Creates a new Coral Protocol session for multi-agent collaboration on Solana analysis. Sessions enable thread-based communication between AI agents." |};
   {| Tool.name := "list_coral_sessions";
      Tool.description := "Lists all active Coral Protocol sessions with participants and thread information." |};
   {| Tool.name := "create_coral_thread";
      Tool.description := "Creates a communication thread within a Coral session for focused agent collaboration on specific analysis tasks." |};
   {| Tool.name := "send_coral_message";
      Tool.description := "Sends a message to a Coral thread, enabling communication between agents for collaborative Solana analysis." |};
   {| Tool.name := "discover_coral_agents";
      Tool.description := "Discovers available AI agents in the Coral Protocol network that can assist with specific capabilities like DeFi analysis, trading insights, or risk assessment." |};
   {| Tool.name := "advertise_solana_agent";
      Tool.description := "Advertises this Solana MCP agent in the Coral Protocol network, making it discoverable by other agents and applications." |}]%list.

Record TextContent : Type := { type_ : string; text : string }.

(** The second property of a handler's result, under its own key. *)
Inductive ToolData : Type :=
| NoData
| Transactions (relevantTxs : list (option Exact.Summary.t))
| Session (session : CoralSession.t)
| Sessions (sessions : list CoralSession.t)
| Thread (thread : CoralThread.t)
| SentMessage (sent : CoralMessage.t)
| Agents (agents : list CoralAgentAdvertisement.t)
| Advertisement (advertisement : CoralAgentAdvertisement.t).

Record CallToolResult : Type := {
  content : list TextContent;
  data : ToolData;
  isError : bool
}.

Definition textResult (t : string) (d : ToolData) : CallToolResult :=
  {| content := [{| type_ := "text"; text := t |}]%list; data := d; isError := false |}.

(** ** handleCoralTool (lines 356-504) *)

Definition sessionSummary (sessions : list CoralSession.t) : json :=
  JsonArray
    (map (fun s =>
            JsonObject
              [("id", JsonString (CoralSession.id s));
               ("status", JsonString (CoralSession.status s));
               ("participants",
                JsonNumber (inject_Z (Z.of_nat (List.length (CoralSession.participants s)))));
               ("threads",
                JsonNumber (inject_Z (Z.of_nat (List.length (CoralSession.threads s)))));
               ("created_at", JsonString (CoralSession.created_at s))]%list)
       sessions).

Definition pricingJson (p : Pricing.t) : json :=
  JsonObject
    ([("model", JsonString (Pricing.model p))] ++
     match Pricing.amount p with
     | Some a => [("amount", JsonNumber a)]
     | None => nil
     end)%list.

Definition agentSummary (agents : list CoralAgentAdvertisement.t) : json :=
  JsonArray
    (map (fun a =>
            JsonObject
              ([("id", JsonString (CoralAgentAdvertisement.id a));
                ("name", JsonString (CoralAgentAdvertisement.name a));
                ("description", JsonString (CoralAgentAdvertisement.description a));
                ("capabilities",
                 JsonArray (map JsonString (CoralAgentAdvertisement.capabilities a)));
                ("framework", JsonString (CoralAgentAdvertisement.framework a))] ++
               match CoralAgentAdvertisement.pricing a with
               | Some p => [("pricing", pricingJson p)]
               | None => nil
               end)%list)
       agents).

Definition handleCoralTool (env : Env) (name : string) (args : option json)
  : result CallToolResult :=
  if String.eqb name "create_coral_session" then
    match CoralSessionArgsSchema args with
    | None =>
        Threw ("Invalid arguments for create_coral_session: "
                 ++ ZodError_toString env CoralSessionArgs args)
    | Some parsed =>
        try_catch
          (session <- createSession env (coralClient env)
                        (SessionArgs.sessionName parsed) (SessionArgs.description parsed) ;;
           Returned
             (textResult
                ("✅ Created Coral Protocol session " ++ dquote ++ CoralSession.id session
                   ++ dquote ++ " for multi-agent Solana analysis collaboration.")
                (Session session)))
          (fun e => Threw ("Failed to create Coral session: " ++ e))
    end
  else if String.eqb name "list_coral_sessions" then
    try_catch
      (sessions <- getSessions env (coralClient env) ;;
       Returned
         (textResult
            ("📋 Found " ++ Z_toString (Z.of_nat (List.length sessions))
               ++ " active Coral Protocol sessions:" ++ newline ++ newline
               ++ JSON_stringify_indented env (sessionSummary sessions))
            (Sessions sessions)))
      (fun e => Threw ("Failed to list Coral sessions: " ++ e))
  else if String.eqb name "create_coral_thread" then
    match CoralThreadArgsSchema args with
    | None =>
        Threw ("Invalid arguments for create_coral_thread: "
                 ++ ZodError_toString env CoralThreadArgs args)
    | Some parsed =>
        try_catch
          (let sessionId := ThreadArgs.sessionId parsed in
           let participants :=
             match ThreadArgs.participants parsed with
             | Some l => l
             | None => ["solana-mcp-agent"]%list
             end in
           thread <- createThread env (coralClient env) sessionId participants ;;
           Returned
             (textResult
                ("🧵 Created communication thread " ++ dquote ++ CoralThread.id thread
                   ++ dquote ++ " in session " ++ dquote ++ sessionId ++ dquote
                   ++ " with " ++ Z_toString (Z.of_nat (List.length participants))
                   ++ " participants.")
                (Thread thread)))
          (fun e => Threw ("Failed to create Coral thread: " ++ e))
    end
  else if String.eqb name "send_coral_message" then
    match CoralMessageArgsSchema args with
    | None =>
        Threw ("Invalid arguments for send_coral_message: "
                 ++ ZodError_toString env CoralMessageArgs args)
    | Some parsed =>
        try_catch
          (let threadId := MessageArgs.threadId parsed in
           let messageType :=
             match MessageArgs.messageType parsed with
             | Some t => t
             | None => "request"
             end in
           sent <- sendMessage env (coralClient env) threadId
                     (MessageArgs.content parsed) messageType ;;
           Returned
             (textResult
                ("💬 Sent " ++ messageType ++ " message to thread " ++ dquote ++ threadId
                   ++ dquote ++ ". Message ID: " ++ CoralMessage.id sent)
                (SentMessage sent)))
          (fun e => Threw ("Failed to send Coral message: " ++ e))
    end
  else if String.eqb name "discover_coral_agents" then
    match CoralDiscoverArgsSchema args with
    | None =>
        Threw ("Invalid arguments for discover_coral_agents: "
                 ++ ZodError_toString env CoralDiscoverArgs args)
    | Some parsed =>
        try_catch
          (let capabilities := DiscoverArgs.capabilities parsed in
           agents <- discoverAgents env (coralClient env) capabilities ;;
           Returned
             (textResult
                ("🔍 Discovered " ++ Z_toString (Z.of_nat (List.length agents))
                   ++ " AI agents in Coral Protocol network"
                   ++ match capabilities with
                      | Some l => " with capabilities: " ++ join ", " l
                      | None => EmptyString
                      end
                   ++ ":" ++ newline ++ newline
                   ++ JSON_stringify_indented env (agentSummary agents))
                (Agents agents)))
          (fun e => Threw ("Failed to discover Coral agents: " ++ e))
    end
  else if String.eqb name "advertise_solana_agent" then
    try_catch
      (advertisement <- advertiseAgent env (coralClient env) nil ;;
       Returned
         (textResult
            ("📢 Successfully advertised Solana MCP Agent in Coral Protocol network!"
               ++ newline ++ newline
               ++ "Agent ID: " ++ CoralAgentAdvertisement.id advertisement ++ newline
               ++ "Capabilities: "
               ++ join ", " (CoralAgentAdvertisement.capabilities advertisement) ++ newline
               ++ "Framework: " ++ CoralAgentAdvertisement.framework advertisement)
            (Advertisement advertisement)))
      (fun e => Threw ("Failed to advertise Solana agent: " ++ e))
  else Threw ("Unknown Coral tool: " ++ name).

(** ** handleSolanaTool (lines 506-561) *)

(** Truthiness of a value that is an object or null. *)
Definition truthy {A} (o : option A) : bool :=
  match o with
  | Some _ => true
  | None => false
  end.

(** [items.map(f)] for a callback that may throw. *)
Fixpoint mapM {A B} (f : A -> result B) (items : list A) : result (list B) :=
  match items with
  | nil => Returned nil
  | a :: rest =>
      b <- f a ;;
      bs <- mapM f rest ;;
      Returned (b :: bs)%list
  end.

Fixpoint rejections {A} (promises : list (result A)) : list string :=
  match promises with
  | nil => nil
  | Returned _ :: rest => rejections rest
  | Threw e :: rest => (e :: rejections rest)%list
  end.

Fixpoint fulfilled {A} (promises : list (result A)) : list A :=
  match promises with
  | nil => nil
  | Returned a :: rest => (a :: fulfilled rest)%list
  | Threw _ :: rest => fulfilled rest
  end.

(** [await Promise.all(promises)]: the values in order, or the reason of the
    first rejection to settle. *)
Definition promiseAll {A} (env : Env) (promises : list (result A)) : result (list A) :=
  match rejections promises with
  | nil => Returned (fulfilled promises)
  | reasons => Threw (firstRejection env reasons)
  end.

(** Lines 525-539: [.filter((tx) => tx)], then the map over the extractor,
    then [.filter(Boolean)]. *)
Definition relevantTxs (fetched : list (option VersionedTransactionResponse))
    (walletAddress : string) : result (list (option Exact.Summary.t)) :=
  summaries <- mapM (fun tx => Exact.extractRelevantTxData tx walletAddress)
                 (filter truthy fetched) ;;
  Returned (filter truthy summaries).

Definition handleSolanaTool (env : Env) (name : string) (args : option json)
  : result CallToolResult :=
  if String.eqb name "fetch_solana_transactions" then
    match FetchSolanaTransactionsArgsSchema args with
    | None =>
        Threw ("Invalid arguments for fetch_solana_transactions: "
                 ++ ZodError_toString env FetchSolanaTransactionsArgs args)
    | Some parsed =>
        let walletAddress := FetchArgs.walletAddress parsed in
        let limit := FetchArgs.limit parsed in
        try_catch
          (_ <- newConnection env ;;
           pubkey <- newPublicKey env walletAddress ;;
           signatures <- getSignaturesForAddress env pubkey limit ;;
           fetched <- promiseAll env (map (getTransaction env) signatures) ;;
           relevant <- relevantTxs fetched walletAddress ;;
           Returned
             (textResult (JSON_stringify_summaries env relevant) (Transactions relevant)))
          (fun e => Threw ("Failed to fetch Solana transactions: " ++ e))
    end
  else Threw ("Unknown Solana tool: " ++ name).

(** ** The request handlers (lines 568-603) *)

(** Lines 568-570. *)
Definition ListToolsRequestHandler : list Tool.t := solanaTools.

(** Lines 582-589. *)
Definition coralTools : list string :=
  ["create_coral_session"; "list_coral_sessions"; "create_coral_thread";
   "send_coral_message"; "discover_coral_agents"; "advertise_solana_agent"]%list.

Definition errorResult (errorMessage : string) : CallToolResult :=
  {| content := [{| type_ := "text"; text := "❌ Error: " ++ errorMessage |}]%list;
     data := NoData;
     isError := true |}.

(** Lines 572-603. *)
Definition CallToolRequestHandler (env : Env) (name : string) (args : option json)
  : result CallToolResult :=
  try_catch
    (if String.eqb name "fetch_solana_transactions" then handleSolanaTool env name args
     else if existsb (String.eqb name) coralTools then handleCoralTool env name args
     else Threw ("Unknown tool: " ++ name))
    (fun errorMessage => Returned (errorResult errorMessage)).

(** ** Sample environments *)

Definition address44 : string := "7xKXtg2CW87d97TXJSDpbD5jBkheTqA83TZRuJosgAsU".

(** A node that knows two signatures of the wallet, the second of which has
    no transaction any more; the Coral server is not reachable. *)
Definition sampleEnv : Env :=
  {| CORAL_SERVER_URL := None;
     CORAL_API_KEY := Some "secret";
     JSON_stringify := fun _ => "{}";
     JSON_stringify_indented := fun _ => "[]";
     JSON_stringify_summaries := fun l => Z_toString (Z.of_nat (List.length l));
     ZodError_toString := fun _ _ => "[issues]";
     fetch_session := fun _ => Threw "fetch failed";
     fetch_sessions := fun _ => Threw "fetch failed";
     fetch_thread := fun _ => Threw "fetch failed";
     fetch_message := fun _ => Threw "fetch failed";
     fetch_agents := fun _ => Threw "fetch failed";
     fetch_advertisement := fun _ => Threw "fetch failed";
     newConnection := Returned tt;
     newPublicKey := fun s => Returned (key s);
     getSignaturesForAddress := fun _ _ => Returned ["4sig"; "gone"]%list;
     getTransaction :=
       fun s => if String.eqb s "4sig" then Returned (Some nativeTx) else Returned None;
     firstRejection := fun reasons => hd EmptyString reasons |}.

(** The same node, throttling the signature request. *)
Definition throttledEnv : Env :=
  {| CORAL_SERVER_URL := CORAL_SERVER_URL sampleEnv;
     CORAL_API_KEY := CORAL_API_KEY sampleEnv;
     JSON_stringify := JSON_stringify sampleEnv;
     JSON_stringify_indented := JSON_stringify_indented sampleEnv;
     JSON_stringify_summaries := JSON_stringify_summaries sampleEnv;
     ZodError_toString := ZodError_toString sampleEnv;
     fetch_session := fetch_session sampleEnv;
     fetch_sessions := fetch_sessions sampleEnv;
     fetch_thread := fetch_thread sampleEnv;
     fetch_message := fetch_message sampleEnv;
     fetch_agents := fetch_agents sampleEnv;
     fetch_advertisement := fetch_advertisement sampleEnv;
     newConnection := Returned tt;
     newPublicKey := newPublicKey sampleEnv;
     getSignaturesForAddress := fun _ _ => Threw "429 Too Many Requests";
     getTransaction := getTransaction sampleEnv;
     firstRejection := firstRejection sampleEnv |}.

(** A Coral server that turns away every request without the bearer token
    [secret], and is out of order for the others. *)
Definition guarded {A} (q : Http.Request) : result (Http.Response A) :=
  match Http.headers q with
  | [_; (_, token)]%list =>
      if String.eqb token "Bearer secret" then Threw "fetch failed"
      else Threw "unauthorized"
  | _ => Threw "unauthorized"
  end.

Definition guardedEnv : Env :=
  {| CORAL_SERVER_URL := CORAL_SERVER_URL sampleEnv;
     CORAL_API_KEY := CORAL_API_KEY sampleEnv;
     JSON_stringify := JSON_stringify sampleEnv;
     JSON_stringify_indented := JSON_stringify_indented sampleEnv;
     JSON_stringify_summaries := JSON_stringify_summaries sampleEnv;
     ZodError_toString := ZodError_toString sampleEnv;
     fetch_session := guarded;
     fetch_sessions := guarded;
     fetch_thread := guarded;
     fetch_message := guarded;
     fetch_agents := guarded;
     fetch_advertisement := guarded;
     newConnection := newConnection sampleEnv;
     newPublicKey := newPublicKey sampleEnv;
     getSignaturesForAddress := getSignaturesForAddress sampleEnv;
     getTransaction := getTransaction sampleEnv;
     firstRejection := firstRejection sampleEnv |}.

(** A node that loses the request for the second signature. *)
Definition flakyEnv : Env :=
  {| CORAL_SERVER_URL := CORAL_SERVER_URL sampleEnv;
     CORAL_API_KEY := CORAL_API_KEY sampleEnv;
     JSON_stringify := JSON_stringify sampleEnv;
     JSON_stringify_indented := JSON_stringify_indented sampleEnv;
     JSON_stringify_summaries := JSON_stringify_summaries sampleEnv;
     ZodError_toString := ZodError_toString sampleEnv;
     fetch_session := fetch_session sampleEnv;
     fetch_sessions := fetch_sessions sampleEnv;
     fetch_thread := fetch_thread sampleEnv;
     fetch_message := fetch_message sampleEnv;
     fetch_agents := fetch_agents sampleEnv;
     fetch_advertisement := fetch_advertisement sampleEnv;
     newConnection := Returned tt;
     newPublicKey := newPublicKey sampleEnv;
     getSignaturesForAddress := getSignaturesForAddress sampleEnv;
     getTransaction :=
       fun s => if String.eqb s "4sig" then Returned (Some nativeTx)
                else Threw "socket hang up";
     firstRejection := firstRejection sampleEnv |}.

Definition fetchArgs (address : string) : option json :=
  Some (JsonObject [("walletAddress", JsonString address)]%list).

(** A node that answers every request, the second signature with a record
    stamped beyond the range of a [Date]. *)
Definition lateEnv : Env :=
  {| CORAL_SERVER_URL := CORAL_SERVER_URL sampleEnv;
     CORAL_API_KEY := CORAL_API_KEY sampleEnv;
     JSON_stringify := JSON_stringify sampleEnv;
     JSON_stringify_indented := JSON_stringify_indented sampleEnv;
     JSON_stringify_summaries := JSON_stringify_summaries sampleEnv;
     ZodError_toString := ZodError_toString sampleEnv;
     fetch_session := fetch_session sampleEnv;
     fetch_sessions := fetch_sessions sampleEnv;
     fetch_thread := fetch_thread sampleEnv;
     fetch_message := fetch_message sampleEnv;
     fetch_agents := fetch_agents sampleEnv;
     fetch_advertisement := fetch_advertisement sampleEnv;
     newConnection := Returned tt;
     newPublicKey := newPublicKey sampleEnv;
     getSignaturesForAddress := getSignaturesForAddress sampleEnv;
     getTransaction :=
       fun s => if String.eqb s "4sig" then Returned (Some nativeTx)
                else Returned (Some lateTx);
     firstRejection := firstRejection sampleEnv |}.

(** ** Vocabulary for the handlers *)

(** The transactions that were fetched, the missing ones left out. *)
Fixpoint present (fetched : list (option VersionedTransactionResponse))
  : list VersionedTransactionResponse :=
  match fetched with
  | nil => nil
  | Some tx :: rest => (tx :: present rest)%list
  | None :: rest => present rest
  end.

(** The schema a tool validates its arguments with, if it has one. *)
Definition accepts (name : string) (args : option json) : bool :=
  if String.eqb name "fetch_solana_transactions" then
    truthy (FetchSolanaTransactionsArgsSchema args)
  else if String.eqb name "create_coral_session" then truthy (CoralSessionArgsSchema args)
  else if String.eqb name "create_coral_thread" then truthy (CoralThreadArgsSchema args)
  else if String.eqb name "send_coral_message" then truthy (CoralMessageArgsSchema args)
  else if String.eqb name "discover_coral_agents" then truthy (CoralDiscoverArgsSchema args)
  else true.

Definition schemaOf (name : string) : option Schema :=
  if String.eqb name "fetch_solana_transactions" then Some FetchSolanaTransactionsArgs
  else if String.eqb name "create_coral_session" then Some CoralSessionArgs
  else if String.eqb name "create_coral_thread" then Some CoralThreadArgs
  else if String.eqb name "send_coral_message" then Some CoralMessageArgs
  else if String.eqb name "discover_coral_agents" then Some CoralDiscoverArgs
  else None.

(** What a Coral tool puts before the message of a failed request. *)
Definition failurePrefix (name : string) : string :=
  if String.eqb name "create_coral_session" then "Failed to create Coral session: "
  else if String.eqb name "list_coral_sessions" then "Failed to list Coral sessions: "
  else if String.eqb name "create_coral_thread" then "Failed to create Coral thread: "
  else if String.eqb name "send_coral_message" then "Failed to send Coral message: "
  else if String.eqb name "discover_coral_agents" then "Failed to discover Coral agents: "
  else "Failed to advertise Solana agent: ".

(** The outcome [r] of a [fetch] makes [makeRequest] throw [e]: the promise
    is rejected with [e], or the response is not ok and [e] reports its
    status. *)
Definition failsWith {A} (r : result (Http.Response A)) (e : string) : Prop :=
  r = Threw e \/
  exists response,
    r = Returned response /\ Http.ok response = false /\
    e = "Coral Protocol API error: " ++ Z_toString (Http.status response)
          ++ " " ++ Http.statusText response.

(** Every request to the Coral server fails with [e]. *)
Definition serverFails (env : Env) (e : string) : Prop :=
  (forall q, failsWith (fetch_session env q) e) /\
  (forall q, failsWith (fetch_sessions env q) e) /\
  (forall q, failsWith (fetch_thread env q) e) /\
  (forall q, failsWith (fetch_message env q) e) /\
  (forall q, failsWith (fetch_agents env q) e) /\
  (forall q, failsWith (fetch_advertisement env q) e).

(** The headers of a request of a client configured with [apiKey]. *)
Definition standardHeaders (apiKey : option string) : list (string * string) :=
  match apiKey with
  | Some k =>
      if String.eqb k EmptyString then [("Content-Type", "application/json")]%list
      else [("Content-Type", "application/json");
            ("Authorization", ("Bearer " ++ k)%string)]%list
  | None => [("Content-Type", "application/json")]%list
  end.

(** [env] and [env'] differ at most in what the Coral server answers to
    requests that do not satisfy [P]. *)
Definition sameUpTo (P : Http.Request -> Prop) (env env' : Env) : Prop :=
  CORAL_SERVER_URL env = CORAL_SERVER_URL env' /\
  CORAL_API_KEY env = CORAL_API_KEY env' /\
  JSON_stringify env = JSON_stringify env' /\
  JSON_stringify_indented env = JSON_stringify_indented env' /\
  ZodError_toString env = ZodError_toString env' /\
  (forall q, P q -> fetch_session env q = fetch_session env' q) /\
  (forall q, P q -> fetch_sessions env q = fetch_sessions env' q) /\
  (forall q, P q -> fetch_thread env q = fetch_thread env' q) /\
  (forall q, P q -> fetch_message env q = fetch_message env' q) /\
  (forall q, P q -> fetch_agents env q = fetch_agents env' q) /\
  (forall q, P q -> fetch_advertisement env q = fetch_advertisement env' q).

(** ** Auxiliary facts *)

Lemma findOwner_first balances w b :
  findOwner balances w = Some b <-> firstOwned balances w b.
Proof.
  unfold findOwner, firstOwned. induction balances as [|c l IH]; simpl.
  - split; [discriminate|]. intros (before & after & H & _). destruct before; discriminate.
  - destruct (owner c) as [o|] eqn:Ho.
    + destruct (String.eqb_spec o w) as [->|Hne].
      * split.
        -- intros [= <-]. exists []%list, l. auto.
        -- intros (before & after & H & Hb & Hall). destruct before as [|c' before].
           ++ simpl in H. congruence.
           ++ simpl in H. injection H as <- _. inversion Hall; subst. congruence.
      * rewrite IH. split.
        -- intros (before & after & -> & Hb & Hall). exists (c :: before)%list, after.
           repeat split; auto. constructor; auto. congruence.
        -- intros (before & after & H & Hb & Hall). destruct before as [|c' before].
           ++ simpl in H. injection H as -> _. congruence.
           ++ simpl in H. injection H as <- ->. inversion Hall; subst. eauto.
    + rewrite IH. split.
      * intros (before & after & -> & Hb & Hall). exists (c :: before)%list, after.
        repeat split; auto. constructor; auto. congruence.
      * intros (before & after & H & Hb & Hall). destruct before as [|c' before].
        -- simpl in H. injection H as -> _. congruence.
        -- simpl in H. injection H as <- ->. inversion Hall; subst. eauto.
Qed.

Lemma findOwner_exists balances w :
  (exists b, In b balances /\ owner b = Some w) ->
  exists b, findOwner balances w = Some b.
Proof.
  intros (b & Hin & Hb). unfold findOwner.
  destruct (find _ balances) as [c|] eqn:Hf; [eauto|].
  apply (find_none _ _ Hf) in Hin. rewrite Hb, String.eqb_refl in Hin. discriminate.
Qed.

Lemma findAccountIndex_shift keys w i n :
  firstIndexOf keys w n -> findAccountIndex keys i w = i + Z.of_nat n.
Proof.
  revert i n. induction keys as [|key rest IH]; intros i n [(k & Hk & Hw) Hmin].
  - destruct n; discriminate.
  - simpl. destruct n as [|n].
    + simpl in Hk. injection Hk as ->. rewrite Hw, String.eqb_refl. lia.
    + destruct (String.eqb_spec (toBase58 key) w) as [Heq|_].
      * exfalso. apply (Hmin O key); [lia|reflexivity|exact Heq].
      * rewrite (IH (i + 1) n); [lia|]. split; [eauto|].
        intros j k' Hj Hk'. apply (Hmin (S j) k'); [lia|exact Hk'].
Qed.

Lemma findAccountIndex_first keys w n :
  firstIndexOf keys w n -> findAccountIndex keys 0 w = Z.of_nat n.
Proof. intros H. rewrite (findAccountIndex_shift keys w 0 n H). lia. Qed.

Lemma index_nth {A} (arr : list A) (n : nat) a :
  nth_error arr n = Some a -> index arr (Z.of_nat n) = JVal a.
Proof.
  intros H. unfold index.
  destruct (Z.ltb_spec (Z.of_nat n) 0); [lia|]. now rewrite Nat2Z.id, H.
Qed.

Lemma decimalsOf_spec b : decimalsOf b = spec_decimals b.
Proof.
  unfold decimalsOf, spec_decimals, or_Z.
  destruct (uiTokenAmount b) as [ui|]; [|reflexivity].
  destruct (decimals ui) as [d|]; [|reflexivity].
  destruct (Z.eqb_spec d 0); congruence.
Qed.

Lemma resolveAccountKeys_returns t :
  exists keys, resolveAccountKeys t = Returned keys.
Proof.
  unfold resolveAccountKeys. destruct (message t) as [msg|]; simpl; [|eauto].
  destruct (getAccountKeys msg); simpl; eauto.
Qed.

(** The summary that the extractor assembles once the account keys are
    resolved to [keys]. *)
Lemma extract_unfold tx w keys :
  resolveAccountKeys (transaction tx) = Returned keys ->
  extractRelevantTxData (Some tx) w =
  Returned (Some
    {| Summary.signature := nth_error (signatures (transaction tx)) 0;
       Summary.solscanUrl :=
         "https://solscan.io/tx/" ++ template (nth_error (signatures (transaction tx)) 0);
       Summary.date := dateOf (blockTime tx);
       Summary.sender := fst (counterparties (transaction tx) keys);
       Summary.receiver := snd (counterparties (transaction tx) keys);
       Summary.amount :=
         fst (amountAndMint (fst (matchTokenBalances (meta tx) w))
                (snd (matchTokenBalances (meta tx) w))
                (fst (nativeBalances (meta tx) keys w))
                (snd (nativeBalances (meta tx) keys w)));
       Summary.tokenMint :=
         snd (amountAndMint (fst (matchTokenBalances (meta tx) w))
                (snd (matchTokenBalances (meta tx) w))
                (fst (nativeBalances (meta tx) keys w))
                (snd (nativeBalances (meta tx) keys w)));
       Summary.slot := slot tx |}).
Proof.
  intros Hk. unfold extractRelevantTxData. rewrite Hk. simpl.
  destruct (matchTokenBalances (meta tx) w) as [preT postT].
  destruct (nativeBalances (meta tx) keys w) as [preB postB].
  destruct (counterparties (transaction tx) keys) as [snd_ rcv].
  simpl. destruct (amountAndMint preT postT preB postB). reflexivity.
Qed.

(** *** Number on decimal numerals *)

Lemma digit_code c d : digit c = Some d -> 48 <= Double.code c <= 57 /\ d = Double.code c - 48.
Proof.
  unfold digit, Double.code.
  destruct (Z.leb_spec 48 (Z.of_nat (nat_of_ascii c)));
    destruct (Z.leb_spec (Z.of_nat (nat_of_ascii c)) 57); simpl; try discriminate.
  intros [= <-]. lia.
Qed.

Lemma digit_in_decimal c d : digit c = Some d -> Double.digit_in 10 c = Some d.
Proof.
  intros H. destruct (digit_code c d H) as [Hc ->]. unfold Double.digit_in.
  destruct (Z.leb_spec 48 (Double.code c)); [|lia].
  destruct (Z.leb_spec (Double.code c) 57); [|lia]. simpl.
  destruct (Z.ltb_spec (Double.code c - 48) 10); [reflexivity|lia].
Qed.

Lemma decimal_digits s : forall acc count n,
  decimal s acc = Some n ->
  Double.digits 10 s acc count = (n, count + Z.of_nat (String.length s), EmptyString).
Proof.
  induction s as [|c s IH]; intros acc count n; cbn [decimal Double.digits].
  - intros [= ->]. now rewrite Z.add_0_r.
  - destruct (digit c) as [d|] eqn:Hd; [|discriminate].
    rewrite (digit_in_decimal c d Hd). intros H. rewrite (IH _ (count + 1) _ H).
    f_equal. f_equal. cbn [String.length]. lia.
Qed.

Lemma decimal_nonneg s : forall acc n, 0 <= acc -> decimal s acc = Some n -> 0 <= n.
Proof.
  induction s as [|c s IH]; intros acc n Hacc; cbn [decimal].
  - now intros [= <-].
  - destruct (digit c) as [d|] eqn:Hd; [|discriminate].
    destruct (digit_code c d Hd) as [Hc ->]. intros H. apply IH in H; [exact H|lia].
Qed.

Ltac decide_tests :=
  repeat match goal with
         | |- context [?a <=? ?b] => destruct (Z.leb_spec a b); try lia
         | |- context [?a =? ?b] => destruct (Z.eqb_spec a b); try lia
         end.

Lemma digit_not_white_space c d rest :
  digit c = Some d -> Double.white_space (String c rest) = None.
Proof.
  intros H. destruct (digit_code c d H) as [Hc _]. unfold Double.white_space.
  destruct rest as [|c2 [|c3 r3]]; decide_tests; reflexivity.
Qed.

Lemma of_decimal_integer n : 0 <= n -> Double.of_decimal false n 0 = Double.of_Z n.
Proof.
  intros Hn. unfold Double.of_decimal, Double.of_Z. destruct n as [|p|p]; [reflexivity| |lia].
  simpl Z.leb. cbv iota. unfold cond_Zopp. now rewrite Z.mul_1_r.
Qed.

(** [Number] takes an unsigned decimal numeral to the double nearest to the
    integer it denotes. *)
Lemma Number_numeral s n : decimal s 0 = Some n -> Double.Number s = Double.of_Z n.
Proof.
  intros H. destruct s as [|c rest]; [injection H as <-; reflexivity|].
  pose proof (decimal_nonneg _ _ _ (Z.le_refl 0) H) as Hn.
  pose proof (decimal_digits _ 0 0 n H) as Hdigits.
  simpl in H. destruct (digit c) as [d|] eqn:Hd; [|discriminate].
  destruct (digit_code c d Hd) as [Hc _].
  unfold Double.Number. cbn [String.length Double.trim_start].
  rewrite (digit_not_white_space c d rest Hd).
  assert (Hdec : Double.infinity_or_decimal false (String c rest) = Double.of_Z n).
  { unfold Double.infinity_or_decimal. cbn [Double.strip_prefix].
    destruct (Ascii.eqb_spec "I"%char c) as [<-|_];
      [exfalso; destruct Hc as [_ Hc]; now apply Hc|].
    unfold Double.unsigned_decimal. rewrite Hdigits. cbn [Double.exponent].
    destruct (Z.ltb_spec 0 (0 + Z.of_nat (String.length (String c rest))));
      [|simpl String.length in *; lia].
    now apply of_decimal_integer. }
  destruct rest as [|c2 r2]; [exact Hdec|].
  destruct (digit c2) as [d2|] eqn:Hd2; [|simpl in H; rewrite Hd2 in H; discriminate].
  destruct (digit_code c2 d2 Hd2) as [Hc2 _].
  decide_tests; simpl; exact Hdec.
Qed.

(** [Number] away from the unsigned numerals: exponents, signs, white space,
    radix prefixes and fractions are read, the value is rounded to the
    nearest double, and what is not a numeric literal is [NaN]. *)
Example Number_literals :
  Double.Number "1e3" = Double.of_Z 1000 /\
  Double.Number "-5" = Double.of_Z (-5) /\
  Double.Number " 12" = Double.of_Z 12 /\
  Double.Number "0x10" = Double.of_Z 16 /\
  Double.Number "1.5" = Double.div (Double.of_Z 3) (Double.of_Z 2) /\
  Double.Number "0.1" = S754_finite false 7205759403792794 (-56) /\
  Double.Number "9007199254740993" = Double.of_Z 9007199254740992 /\
  Double.Number "18446744073709551615" = S754_finite false 4503599627370496 12 /\
  Double.Number "Infinity" = S754_infinity false /\
  Double.Number "1e309" = S754_infinity false /\
  Double.Number "12px" = S754_nan /\
  Double.Number EmptyString = S754_zero false.
Proof. repeat split. Qed.

Lemma rawAmount_rawDouble b : Exact.rawAmount b = rawDouble b.
Proof.
  unfold Exact.rawAmount, rawDouble, or_string.
  destruct (uiTokenAmount b) as [ui|]; [|reflexivity].
  destruct (amount ui) as [s|]; [|reflexivity].
  destruct (String.eqb_spec s EmptyString); [subst; reflexivity|reflexivity].
Qed.

Lemma rawDouble_integer b n : rawInteger b = Some n -> rawDouble b = Double.of_Z n.
Proof.
  unfold rawInteger, rawDouble.
  destruct (uiTokenAmount b) as [ui|]; [|now intros [= <-]].
  destruct (amount ui) as [s|]; [apply Number_numeral|now intros [= <-]].
Qed.

(** *** The extractor, value for value *)

Lemma dateOf_in_range tx :
  inRange tx = true -> Exact.dateOf (blockTime tx) = Returned (dateIn tx).
Proof.
  unfold inRange, dateIn, Exact.dateOf, Exact.Date_toISOString.
  destruct (blockTime tx) as [t|]; [|reflexivity].
  intros ->. now destruct (t =? 0).
Qed.

Lemma dateOf_out_of_range tx :
  inRange tx = false -> Exact.dateOf (blockTime tx) = Threw "Invalid time value".
Proof.
  unfold inRange, Exact.dateOf, Exact.Date_toISOString.
  destruct (blockTime tx) as [t|]; [|discriminate].
  intros H. rewrite H. destruct (Z.eqb_spec t 0) as [->|_]; [discriminate|reflexivity].
Qed.

(** A record in range gives the summary of lines 344-353. *)
Lemma exact_unfold tx w keys :
  inRange tx = true ->
  resolveAccountKeys (transaction tx) = Returned keys ->
  Exact.extractRelevantTxData (Some tx) w =
    Returned (Some (summaryOf tx w (dateIn tx) keys)).
Proof.
  intros Hd Hk. unfold Exact.extractRelevantTxData, summaryOf.
  rewrite (dateOf_in_range tx Hd), Hk. simpl.
  destruct (matchTokenBalances (meta tx) w) as [preT postT].
  destruct (nativeBalances (meta tx) keys w) as [preB postB].
  destruct (Exact.counterparties (transaction tx) keys) as [snd_ rcv].
  simpl. destruct (Exact.amountAndMint preT postT preB postB). reflexivity.
Qed.

(** A record out of range stops the extractor at line 277. *)
Lemma exact_throws tx w :
  inRange tx = false ->
  Exact.extractRelevantTxData (Some tx) w = Threw "Invalid time value".
Proof.
  intros Hd. unfold Exact.extractRelevantTxData.
  now rewrite (dateOf_out_of_range tx Hd).
Qed.

Lemma exact_outcome tx w :
  exists s,
    Exact.extractRelevantTxData (Some tx) w =
      if inRange tx then Returned (Some s) else Threw "Invalid time value".
Proof.
  destruct (inRange tx) eqn:Hd.
  - destruct (resolveAccountKeys_returns (transaction tx)) as [keys Hk].
    eexists. apply (exact_unfold tx w keys Hd Hk).
  - exists (summaryOf tx w JNull []%list). now apply exact_throws.
Qed.

Lemma findReceiver_erase keys ixs :
  findReceiver keys ixs = erase (Exact.findReceiver keys ixs).
Proof.
  induction ixs as [|ix ixs IH]; simpl; [reflexivity|].
  destruct (accountKeyIndexes ix) as [[|i0 [|i1 more]]|]; try exact IH.
  unfold get, Exact.get. now destruct (nth_error keys i1).
Qed.

(** The two readings of the extractor agree on every record in range, up to
    the difference between [null] and [undefined] and to the rounding of the
    amount. *)
Lemma abstraction tx w :
  inRange tx = true ->
  exists s a,
    Exact.extractRelevantTxData (Some tx) w = Returned (Some s) /\
    extractRelevantTxData (Some tx) w = Returned (Some a) /\
    Summary.signature a = erase (Exact.Summary.signature s) /\
    Summary.solscanUrl a = Exact.Summary.solscanUrl s /\
    Summary.date a = erase (Exact.Summary.date s) /\
    Summary.sender a = erase (Exact.Summary.sender s) /\
    Summary.receiver a = erase (Exact.Summary.receiver s) /\
    (Summary.amount a = None <-> Exact.Summary.amount s = JNull) /\
    Summary.tokenMint a = erase (Exact.Summary.tokenMint s) /\
    Summary.slot a = Exact.Summary.slot s.
Proof.
  intros Hd. destruct (resolveAccountKeys_returns (transaction tx)) as [keys Hk].
  eexists. eexists.
  split; [apply (exact_unfold tx w keys Hd Hk)|].
  split; [apply (extract_unfold tx w keys Hk)|]. simpl.
  assert (Hsig : nth_error (signatures (transaction tx)) 0 =
                 erase (index (signatures (transaction tx)) 0)).
  { unfold index. simpl. now destruct (signatures (transaction tx)). }
  split; [exact Hsig|].
  split.
  { f_equal. unfold index. simpl. now destruct (signatures (transaction tx)). }
  split.
  { unfold dateOf, dateIn. destruct (blockTime tx) as [t|]; [|reflexivity].
    now destruct (t =? 0). }
  split.
  { unfold counterparties, Exact.counterparties.
    destruct (message (transaction tx)); [|reflexivity]. simpl.
    unfold get, Exact.get. now destruct keys. }
  split.
  { unfold counterparties, Exact.counterparties.
    destruct (message (transaction tx)); [|reflexivity]. simpl.
    apply findReceiver_erase. }
  split; [|split; [|reflexivity]].
  - unfold amountAndMint, Exact.amountAndMint.
    destruct (matchTokenBalances (meta tx) w) as [[p|] [q|]]; simpl;
      try (split; discriminate);
      destruct (not_null _ && not_null _); simpl; split; (discriminate || reflexivity).
  - unfold amountAndMint, Exact.amountAndMint.
    destruct (matchTokenBalances (meta tx) w) as [[p|] [q|]]; simpl;
      try reflexivity;
      destruct (not_null _ && not_null _); reflexivity.
Qed.

(** ** Amount and asset selection *)

(** C1, as it is stated, at [roundingTx].  Both token-balance lists hold an
    entry of the wallet, with the raw amounts 9007199254740993 and
    9007199254740992 and 9 decimal places.  In exact arithmetic the amount
    is -1/10^9; the extractor returns +0, because [Number] takes the first
    raw amount to the nearest double, which is 2^53. *)
Lemma token_amount_is_rounded :
  exists preT postT s x q,
    firstOwned [tokenBalance W "MintA" "9007199254740993" 9] W preT /\
    firstOwned [tokenBalance W "MintA" "9007199254740992" 9] W postT /\
    Exact.extractRelevantTxData (Some roundingTx) W = Returned (Some s) /\
    Exact.Summary.amount s = JVal x /\
    Exact.Summary.tokenMint s = JVal "MintA" /\
    exactTokenAmount preT postT = Some q /\
    (q == -1 # 1000000000)%Q /\
    Double.value x = Some 0%Q /\
    ~ (0 == q)%Q.
Proof.
  exists (tokenBalance W "MintA" "9007199254740993" 9),
         (tokenBalance W "MintA" "9007199254740992" 9).
  eexists. eexists. eexists.
  split; [apply findOwner_first; reflexivity|].
  split; [apply findOwner_first; reflexivity|].
  split; [vm_compute; reflexivity|].
  split; [reflexivity|]. split; [reflexivity|].
  split; [reflexivity|]. split; [reflexivity|].
  split; [reflexivity|]. discriminate.
Qed.

(** C1.  On a record the call returns for, when the pre- and the
    post-token-balance lists both hold an entry owned by the wallet address,
    the extractor takes the token path whatever the native balances are.
    The amount is the double that (post - pre) / 10 ** decimals evaluates
    to: each raw amount is first taken to a double by [Number], a missing
    one counting as 0, a decimal numeral giving the double nearest to its
    integer; the difference and the quotient are rounded in turn; the
    decimals are those of the first matching pre entry, 0 when missing.  The
    asset identifier is the mint of that pre entry. *)
Theorem token_path_priority tx w m pre post :
  inRange tx = true ->
  meta tx = Some m ->
  preTokenBalances m = Some pre ->
  postTokenBalances m = Some post ->
  (exists b, In b pre /\ owner b = Some w) ->
  (exists b, In b post /\ owner b = Some w) ->
  exists preT postT s,
    firstOwned pre w preT /\ firstOwned post w postT /\
    Exact.extractRelevantTxData (Some tx) w = Returned (Some s) /\
    Exact.Summary.amount s =
      JVal (Double.div (Double.sub (rawDouble postT) (rawDouble preT))
              (Double.pow10 (spec_decimals preT))) /\
    (forall a b, rawInteger preT = Some a -> rawInteger postT = Some b ->
       Exact.Summary.amount s =
         JVal (Double.div (Double.sub (Double.of_Z b) (Double.of_Z a))
                 (Double.pow10 (spec_decimals preT)))) /\
    Exact.Summary.tokenMint s = JVal (mint preT).
Proof.
  intros Hd Hm Hpre Hpost Hin1 Hin2.
  destruct (findOwner_exists pre w Hin1) as [preT HpreT].
  destruct (findOwner_exists post w Hin2) as [postT HpostT].
  destruct (resolveAccountKeys_returns (transaction tx)) as [keys Hk].
  exists preT, postT. eexists.
  split; [now apply findOwner_first|].
  split; [now apply findOwner_first|].
  split; [apply (exact_unfold tx w keys Hd Hk)|].
  unfold summaryOf. cbn [Exact.Summary.amount Exact.Summary.tokenMint].
  unfold matchTokenBalances. rewrite Hm, Hpre, Hpost, HpreT, HpostT.
  cbn [fst snd Exact.amountAndMint].
  rewrite !rawAmount_rawDouble, decimalsOf_spec.
  split; [reflexivity|]. split; [|reflexivity].
  intros a b Ha Hb. now rewrite (rawDouble_integer preT a Ha), (rawDouble_integer postT b Hb).
Qed.

Lemma token_path_priority_witness :
  exists s,
    Exact.extractRelevantTxData (Some tokenTx) W = Returned (Some s) /\
    Exact.Summary.amount s = JVal (S754_finite false 4503599627370496 (-53)) /\
    Exact.Summary.tokenMint s = JVal "MintA".
Proof.
  destruct (token_path_priority tokenTx W tokenMeta
              [tokenBalance "Other" "MintB" "7" 2; tokenBalance W "MintA" "1000000" 6]
              [tokenBalance W "MintA" "1500000" 6; tokenBalance "Other" "MintB" "7" 2]
              eq_refl eq_refl eq_refl eq_refl
              (ex_intro _ (tokenBalance W "MintA" "1000000" 6)
                 (conj (or_intror (or_introl eq_refl)) eq_refl))
              (ex_intro _ (tokenBalance W "MintA" "1500000" 6)
                 (conj (or_introl eq_refl) eq_refl)))
    as (preT & postT & s & Hpre & Hpost & Hs & _ & Hamount & Hmint).
  apply findOwner_first in Hpre. apply findOwner_first in Hpost.
  injection Hpre as <-. injection Hpost as <-.
  exists s. split; [exact Hs|]. split; [|exact Hmint].
  exact (Hamount 1000000 1500000 eq_refl eq_refl).
Defined.

(** The example of the specification: raw amounts 1000000 and 1500000 with 6
    decimals give 0.5, although the native balance of the wallet fell. *)
Example token_amount_scaling :
  exists s x q,
    Exact.extractRelevantTxData (Some tokenTx) W = Returned (Some s) /\
    Exact.Summary.amount s = JVal x /\
    Double.value x = Some q /\ (q == 1 # 2)%Q /\
    Exact.Summary.tokenMint s = JVal "MintA".
Proof.
  eexists. eexists. eexists. split; [vm_compute; reflexivity|].
  split; [reflexivity|]. split; [reflexivity|]. split; reflexivity.
Qed.



(** The example of the specification: a balance falling from 5000000000 to
    4000000000 gives the amount -1 in ["SOL"]. *)
Example native_amount_sign :
  exists s q,
    extractRelevantTxData (Some nativeTx) W = Returned (Some s) /\
    Summary.amount s = Some (Num q) /\ (q == -1)%Q /\
    Summary.tokenMint s = Some "SOL".
Proof.
  eexists. eexists. split; [reflexivity|]. simpl.
  split; [reflexivity|]. split; reflexivity.
Qed.

(** The native path value for value: the two balances are subtracted and
    the difference is divided by 1e9 as doubles. *)
Lemma native_path_rounded tx w m keys i pre post a b :
  inRange tx = true ->
  meta tx = Some m ->
  fst (matchTokenBalances (meta tx) w) = None \/
    snd (matchTokenBalances (meta tx) w) = None ->
  resolveAccountKeys (transaction tx) = Returned keys ->
  firstIndexOf keys w i ->
  preBalances m = Some pre ->
  postBalances m = Some post ->
  nth_error pre i = Some a ->
  nth_error post i = Some b ->
  exists s,
    Exact.extractRelevantTxData (Some tx) w = Returned (Some s) /\
    Exact.Summary.amount s =
      JVal (Double.div (Double.sub (Double.of_Z b) (Double.of_Z a))
              (Double.of_Z 1000000000)) /\
    Exact.Summary.tokenMint s = JVal "SOL".
Proof.
  intros Hd Hm Htok Hk Hi Hpre Hpost Ha Hb.
  eexists. split; [apply (exact_unfold tx w keys Hd Hk)|].
  unfold summaryOf. cbn [Exact.Summary.amount Exact.Summary.tokenMint].
  assert (Hnat : nativeBalances (meta tx) keys w = (JVal a, JVal b)).
  { unfold nativeBalances. rewrite Hm, (findAccountIndex_first keys w i Hi).
    destruct (Z.eqb_spec (Z.of_nat i) (-1)) as [E|_]; [lia|]. simpl.
    now rewrite Hpre, Hpost, (index_nth pre i a Ha), (index_nth post i b Hb). }
  rewrite Hnat. cbn [fst snd].
  destruct (matchTokenBalances (meta tx) w) as [p q]. simpl in Htok.
  destruct Htok as [-> | ->]; [split; reflexivity|]. destruct p; split; reflexivity.
Qed.

Example native_amount_rounded :
  exists s x q,
    Exact.extractRelevantTxData (Some nativeTx) W = Returned (Some s) /\
    Exact.Summary.amount s = JVal x /\
    Double.value x = Some q /\ (q == -1)%Q /\
    Exact.Summary.tokenMint s = JVal "SOL".
Proof.
  eexists. eexists. eexists. split; [vm_compute; reflexivity|].
  split; [reflexivity|]. split; [reflexivity|]. split; reflexivity.
Qed.

(** ** Address resolution *)



(** ** Absent input and totality *)

(** C4.  An absent transaction gives null.  A transaction record is meant to
    give a populated summary, and does so up to the last second that a
    [Date] holds; the same record stamped one second later gives none: line
    277 throws the RangeError of [toISOString], outside the [try] of lines
    291-299, and the call ends by it. *)
Theorem late_record_gives_no_summary :
  (forall w, Exact.extractRelevantTxData None w = Returned None) /\
  blockTime lastSecondTx = Some 8640000000000 /\
  Exact.extractRelevantTxData (Some lastSecondTx) W =
    Returned (Some {| Exact.Summary.signature := JVal "4sig";
                      Exact.Summary.solscanUrl := "https://solscan.io/tx/4sig";
                      Exact.Summary.date := JVal "+275760-09-13T00:00:00.000Z";
                      Exact.Summary.sender := JVal (key W);
                      Exact.Summary.receiver := JVal (key "Other");
                      Exact.Summary.amount := JVal (S754_finite true 4503599627370496 (-52));
                      Exact.Summary.tokenMint := JVal "SOL";
                      Exact.Summary.slot := 250000009 |}) /\
  blockTime lateTx = Some 8640000000001 /\
  transaction lateTx = transaction lastSecondTx /\
  meta lateTx = meta lastSecondTx /\
  Exact.extractRelevantTxData (Some lateTx) W = Threw "Invalid time value".
Proof.
  split; [reflexivity|]. split; [reflexivity|]. split; [vm_compute; reflexivity|].
  repeat split.
Qed.

(** C5.  An error does leave the extractor.  A call on a transaction record
    returns a summary exactly when the block time of the record is absent
    or a time that a [Date] holds, and throws [Invalid time value]
    otherwise, as it does for a record with one signature, a resolvable
    message and no metadata. *)
Theorem RangeError_leaves_the_extractor :
  (forall w, Exact.extractRelevantTxData None w = Returned None) /\
  (forall tx w, exists s,
     Exact.extractRelevantTxData (Some tx) w =
       if inRange tx then Returned (Some s) else Threw "Invalid time value") /\
  signatures (transaction lateTxNoMeta) = ["4sig"]%list /\
  resolveAccountKeys (transaction lateTxNoMeta) = Returned [key W; key "Other"]%list /\
  meta lateTxNoMeta = None /\
  inRange lateTxNoMeta = false /\
  Exact.extractRelevantTxData (Some lateTxNoMeta) W = Threw "Invalid time value".
Proof.
  split; [reflexivity|]. split; [apply exact_outcome|]. repeat split.
Qed.

(** ** Counterparties *)





(** C7.  The sender is the address at index 0 of the resolved address list,
    and is meant to be null when that list is empty.  It is null for a
    record without a message; for a record whose message resolves to an
    empty list, line 321 overwrites the null of line 318 with the
    [undefined] that [get(0)] answers, and the summary carries that. *)
Theorem sender_of_an_empty_key_list :
  (exists s,
     Exact.extractRelevantTxData (Some heuristicTx) W = Returned (Some s) /\
     resolveAccountKeys (transaction heuristicTx) = Returned eightKeys /\
     Exact.Summary.sender s = JVal (key "A0")) /\
  (exists s,
     Exact.extractRelevantTxData (Some epochTx) W = Returned (Some s) /\
     resolveAccountKeys (transaction epochTx) = Returned []%list /\
     Exact.Summary.sender s = JNull) /\
  (exists s,
     Exact.extractRelevantTxData (Some keylessTx) W = Returned (Some s) /\
     resolveAccountKeys (transaction keylessTx) = Returned []%list /\
     Exact.Summary.sender s = JUndefined /\
     not_null (Exact.Summary.sender s) = true).
Proof.
  split; [|split]; eexists; (split; [vm_compute; reflexivity|]); repeat split.
Qed.

(** Where the sender comes from, on every record in range. *)
Lemma sender_of_summary tx w keys :
  inRange tx = true ->
  resolveAccountKeys (transaction tx) = Returned keys ->
  exists s,
    Exact.extractRelevantTxData (Some tx) w = Returned (Some s) /\
    Exact.Summary.sender s =
      match message (transaction tx), keys with
      | Some _, (k :: _)%list => JVal k
      | Some _, nil => JUndefined
      | None, _ => JNull
      end.
Proof.
  intros Hd Hk. eexists. split; [apply (exact_unfold tx w keys Hd Hk)|].
  unfold summaryOf, Exact.counterparties. simpl.
  destruct (message (transaction tx)); [|reflexivity]. now destruct keys.
Qed.

(** ** Date *)

(** The date of every summary: null for an absent block time and for the
    block time 0, the ISO-8601 string of [blockTime * 1000] otherwise. *)
Lemma date_of_summary tx w :
  exists s,
    extractRelevantTxData (Some tx) w = Returned (Some s) /\
    (Summary.date s = None <-> blockTime tx = None \/ blockTime tx = Some 0) /\
    (forall t, blockTime tx = Some t -> t <> 0 ->
       Summary.date s = Some (toISOString (t * 1000))).
Proof.
  destruct (resolveAccountKeys_returns (transaction tx)) as [keys Hk].
  eexists. split; [apply (extract_unfold tx w keys Hk)|]. simpl.
  unfold dateOf. destruct (blockTime tx) as [t|].
  - destruct (Z.eqb_spec t 0) as [->|Hne].
    + split; [tauto|]. intros t [= <-] H. now elim H.
    + split.
      * split; [discriminate|]. intros [H|H]; congruence.
      * now intros t' [= <-] _.
  - split; [tauto|]. discriminate.
Qed.

Example date_of_confirmed_transaction :
  exists s,
    extractRelevantTxData (Some nativeTx) W = Returned (Some s) /\
    Summary.date s = Some "2023-11-14T22:13:20.000Z".
Proof. eexists. split; reflexivity. Qed.

(** C8. The date is meant to be null exactly when the block time is absent.
    At the present block time 0 the truthiness test of line 277 takes the
    null branch, although the ISO-8601 string of that instant exists. *)
Theorem date_at_epoch_is_null :
  exists s,
    extractRelevantTxData (Some epochTx) W = Returned (Some s) /\
    blockTime epochTx = Some 0 /\
    Summary.date s = None /\
    toISOString (0 * 1000) = "1970-01-01T00:00:00.000Z".
Proof. eexists. repeat split; reflexivity. Qed.

(** ** Metadata *)

(** What a record without metadata gives, when its block time is in range:
    no amount and no asset identifier, no token balance matched and no
    native balance read, and the identifiers of the transaction itself. *)
Lemma absent_metadata_fields tx w :
  inRange tx = true ->
  meta tx = None ->
  exists s,
    Exact.extractRelevantTxData (Some tx) w = Returned (Some s) /\
    Exact.Summary.amount s = JNull /\
    Exact.Summary.tokenMint s = JNull /\
    matchTokenBalances (meta tx) w = (None, None) /\
    (forall keys, nativeBalances (meta tx) keys w = (JNull, JNull)) /\
    Exact.Summary.slot s = slot tx /\
    Exact.Summary.date s = dateIn tx /\
    Exact.Summary.signature s = index (signatures (transaction tx)) 0 /\
    Exact.Summary.solscanUrl s =
      "https://solscan.io/tx/" ++ Exact.template (Exact.Summary.signature s).
Proof.
  intros Hd Hmeta.
  destruct (resolveAccountKeys_returns (transaction tx)) as [keys Hk].
  eexists. split; [apply (exact_unfold tx w keys Hd Hk)|].
  unfold summaryOf. rewrite Hmeta. simpl. repeat split.
Qed.

(** C9.  Without metadata the amount and the asset identifier are null, and
    signature, explorer URL and slot are those of the transaction.  The
    date is not always populated where the transaction gives one: at the
    present block time 0 it is null, by the truthiness test of line 277,
    although the ISO-8601 string of that instant exists. *)
Theorem absent_metadata_at_the_epoch :
  meta epochTx = None /\
  blockTime epochTx = Some 0 /\
  Exact.extractRelevantTxData (Some epochTx) W =
    Returned (Some {| Exact.Summary.signature := JVal "1sig";
                      Exact.Summary.solscanUrl := "https://solscan.io/tx/1sig";
                      Exact.Summary.date := JNull;
                      Exact.Summary.sender := JNull;
                      Exact.Summary.receiver := JNull;
                      Exact.Summary.amount := JNull;
                      Exact.Summary.tokenMint := JNull;
                      Exact.Summary.slot := 0 |}) /\
  Exact.Date_toISOString (0 * 1000) = Returned "1970-01-01T00:00:00.000Z".
Proof. repeat split. Qed.



(** * Further properties of the extractor *)

(** ** The account-index scan (lines 303-311) *)

Lemma findAccountIndex_absent keys i w :
  Forall (fun k => toBase58 k <> w) keys -> findAccountIndex keys i w = -1.
Proof.
  intros H. revert i. induction H as [|k keys Hk _ IH]; intros i; simpl; [reflexivity|].
  destruct (String.eqb_spec (toBase58 k) w); [contradiction|apply IH].
Qed.

Lemma findAccountIndex_cases keys w :
  Forall (fun k => toBase58 k <> w) keys \/ exists n, firstIndexOf keys w n.
Proof.
  induction keys as [|k keys IH]; [left; constructor|].
  destruct (String.eqb_spec (toBase58 k) w) as [Heq|Hne].
  - right. exists O. split; [exists k; split; [reflexivity|exact Heq]|]. intros j k' Hj. lia.
  - destruct IH as [Hall|[n [(k' & Hk' & Hw) Hmin]]].
    + left. constructor; assumption.
    + right. exists (S n). split; [exists k'; split; assumption|].
      intros [|j] k'' Hj Hk''; simpl in Hk''.
      * injection Hk'' as <-. exact Hne.
      * apply (Hmin j k''); [lia|exact Hk''].
Qed.

Lemma firstIndexOf_not_absent keys w n :
  firstIndexOf keys w n -> ~ Forall (fun k => toBase58 k <> w) keys.
Proof.
  intros [(k & Hk & Hw) _] Hall. rewrite Forall_forall in Hall.
  apply (Hall k); [eapply nth_error_In; exact Hk|exact Hw].
Qed.

(** X1. The scan answers -1 exactly when no resolved key is the wallet
    address, and otherwise the index of the first such key: never that of a
    later duplicate, never an index outside the list. *)
Theorem findAccountIndex_spec keys w :
  (findAccountIndex keys 0 w = -1 <-> Forall (fun k => toBase58 k <> w) keys) /\
  (forall n, findAccountIndex keys 0 w = Z.of_nat n <-> firstIndexOf keys w n) /\
  -1 <= findAccountIndex keys 0 w < Z.of_nat (List.length keys).
Proof.
  destruct (findAccountIndex_cases keys w) as [Hall|[m Hm]].
  - pose proof (findAccountIndex_absent keys 0 w Hall) as E. rewrite E.
    split; [tauto|]. split.
    + intros n. split; [lia|]. intros Hn. now apply firstIndexOf_not_absent in Hn.
    + lia.
  - pose proof (findAccountIndex_first keys w m Hm) as E. rewrite E.
    split; [|split].
    + split; [lia|]. intros Hall. now apply firstIndexOf_not_absent in Hm.
    + intros n. split.
      * intros Hn. apply Nat2Z.inj in Hn. now subst n.
      * intros Hn. rewrite <- (findAccountIndex_first keys w n Hn). now rewrite E.
    + destruct Hm as [(k & Hk & _) _].
      assert (m < List.length keys)%nat by (apply nth_error_Some; congruence). lia.
Qed.

(** ** Amount selection away from the two main paths (lines 301-342) *)











Example opening_a_token_account_reads_as_native :
  exists s q,
    extractRelevantTxData (Some openingTx) W = Returned (Some s) /\
    Summary.amount s = Some (Num q) /\ (q == -1)%Q /\
    Summary.tokenMint s = Some "SOL".
Proof.
  eexists. eexists. split; [reflexivity|]. simpl.
  split; [reflexivity|]. split; reflexivity.
Qed.

(** ** Counterparties and identifiers (lines 275-277 and 318-329) *)






(** * Properties of the tool handlers *)

(** ** fetch_solana_transactions (lines 506-561) *)

Lemma filter_truthy_present fetched :
  filter truthy fetched = map Some (present fetched).
Proof.
  induction fetched as [|[tx|] rest IH]; simpl; [reflexivity| |exact IH].
  now rewrite IH.
Qed.

Lemma filter_truthy_map_Some {A} (l : list A) : filter truthy (map Some l) = map Some l.
Proof. induction l as [|a l IH]; simpl; [reflexivity|now rewrite IH]. Qed.

Lemma mapM_exact txs w :
  exists summaries,
    mapM (fun tx => Exact.extractRelevantTxData tx w) (map Some txs) =
      (if forallb inRange txs then Returned (map Some summaries)
       else Threw "Invalid time value") /\
    (forallb inRange txs = true ->
     Forall2 (fun tx s => Exact.extractRelevantTxData (Some tx) w = Returned (Some s))
       txs summaries).
Proof.
  induction txs as [|tx txs (summaries & Hmap & Hall)].
  - exists nil. split; [reflexivity|]. constructor.
  - cbn [map mapM forallb]. destruct (inRange tx) eqn:Hd.
    + destruct (resolveAccountKeys_returns (transaction tx)) as [keys Hk].
      pose proof (exact_unfold tx w keys Hd Hk) as Hs.
      exists (summaryOf tx w (dateIn tx) keys :: summaries)%list.
      rewrite Hs. cbn [bind andb]. rewrite Hmap. split.
      * now destruct (forallb inRange txs).
      * intros Hrest. constructor; [exact Hs|now apply Hall].
    + rewrite (exact_throws tx w Hd). exists nil. split; [reflexivity|discriminate].
Qed.

Lemma relevantTxs_summaries fetched w :
  exists summaries,
    relevantTxs fetched w =
      (if forallb inRange (present fetched) then Returned (map Some summaries)
       else Threw "Invalid time value") /\
    (forallb inRange (present fetched) = true ->
     Forall2 (fun tx s => Exact.extractRelevantTxData (Some tx) w = Returned (Some s))
       (present fetched) summaries).
Proof.
  destruct (mapM_exact (present fetched) w) as (summaries & Hmap & Hall).
  exists summaries. split; [|exact Hall].
  unfold relevantTxs. rewrite filter_truthy_present, Hmap.
  destruct (forallb inRange (present fetched)); [|reflexivity].
  simpl. now rewrite filter_truthy_map_Some.
Qed.

Lemma present_length fetched : (List.length (present fetched) <= List.length fetched)%nat.
Proof. induction fetched as [|[tx|] rest IH]; simpl; lia. Qed.

(** X9.  The list a fetch returns holds exactly one summary for each
    transaction that was found, in the order of the fetch: records that are
    missing are skipped and the final [filter(Boolean)] removes nothing.
    The map is cut short, and no list is returned at all, exactly when one
    of the records found has a block time outside the range of a [Date]:
    the RangeError of line 277 then leaves [map]. *)
Theorem relevantTxs_one_per_transaction fetched w :
  exists summaries,
    relevantTxs fetched w =
      (if forallb inRange (present fetched) then Returned (map Some summaries)
       else Threw "Invalid time value") /\
    (forallb inRange (present fetched) = true ->
     Forall2 (fun tx s => Exact.extractRelevantTxData (Some tx) w = Returned (Some s))
       (present fetched) summaries /\
     List.length summaries = List.length (present fetched)) /\
    (List.length (present fetched) <= List.length fetched)%nat.
Proof.
  destruct (mapM_exact (present fetched) w) as (summaries & Hmap & Hall).
  exists summaries. unfold relevantTxs. rewrite filter_truthy_present, Hmap.
  split; [|split].
  - destruct (forallb inRange (present fetched)); [|reflexivity].
    simpl. now rewrite filter_truthy_map_Some.
  - intros Hin. split; [now apply Hall|].
    symmetry. apply (Forall2_length (Hall Hin)).
  - apply present_length.
Qed.

Lemma address_length_rejected o w :
  property o "walletAddress" = Some (JsonString w) ->
  (utf16_length w < 42)%nat \/ (44 < utf16_length w)%nat ->
  FetchSolanaTransactionsArgsSchema (Some (JsonObject o)) = None.
Proof.
  intros Hw Hlen.
  assert (E : (42 <=? utf16_length w)%nat && (utf16_length w <=? 44)%nat = false).
  { apply andb_false_iff. destruct Hlen as [H|H]; [left|right]; now apply Nat.leb_gt. }
  unfold FetchSolanaTransactionsArgsSchema. cbn [z_object]. rewrite Hw. cbn [z_string].
  destruct (property o "limit") as [[]|]; cbn [z_number]; try reflexivity; now rewrite E.
Qed.

(** X10.  A wallet address of fewer than 42 or more than 44 UTF-16 code
    units, which is how the schema measures a string, is turned down before
    anything is asked of the RPC node: whatever the node would answer, the
    call ends in the error result that carries the validation message. *)
Theorem address_length_checked_first env o w :
  property o "walletAddress" = Some (JsonString w) ->
  (utf16_length w < 42)%nat \/ (44 < utf16_length w)%nat ->
  handleSolanaTool env "fetch_solana_transactions" (Some (JsonObject o)) =
    Threw ("Invalid arguments for fetch_solana_transactions: "
             ++ ZodError_toString env FetchSolanaTransactionsArgs (Some (JsonObject o))) /\
  CallToolRequestHandler env "fetch_solana_transactions" (Some (JsonObject o)) =
    Returned (errorResult
                ("Invalid arguments for fetch_solana_transactions: "
                   ++ ZodError_toString env FetchSolanaTransactionsArgs
                        (Some (JsonObject o)))).
Proof.
  intros Hw Hlen.
  assert (H : handleSolanaTool env "fetch_solana_transactions" (Some (JsonObject o)) =
              Threw ("Invalid arguments for fetch_solana_transactions: "
                       ++ ZodError_toString env FetchSolanaTransactionsArgs
                            (Some (JsonObject o)))).
  { unfold handleSolanaTool. rewrite String.eqb_refl.
    now rewrite (address_length_rejected o w Hw Hlen). }
  split; [exact H|]. unfold CallToolRequestHandler. rewrite String.eqb_refl, H.
  reflexivity.
Qed.

(** Code units, not bytes: an address of 44 characters, one of them outside
    ASCII, passes although it is 45 bytes long in UTF-8, and 22 two-byte
    characters do not although they are 44 bytes long. *)
Example address_length_in_code_units :
  utf16_length "7xKXtg2CW87d97TXJSDpbD5jBkheTqA83TZRuJosgAsé" = 44%nat /\
  String.length "7xKXtg2CW87d97TXJSDpbD5jBkheTqA83TZRuJosgAsé" = 45%nat /\
  FetchSolanaTransactionsArgsSchema
    (fetchArgs "7xKXtg2CW87d97TXJSDpbD5jBkheTqA83TZRuJosgAsé") =
    Some {| FetchArgs.walletAddress := "7xKXtg2CW87d97TXJSDpbD5jBkheTqA83TZRuJosgAsé";
            FetchArgs.limit := inject_Z 100 |} /\
  utf16_length "éééééééééééééééééééééé" = 22%nat /\
  String.length "éééééééééééééééééééééé" = 44%nat /\
  FetchSolanaTransactionsArgsSchema (fetchArgs "éééééééééééééééééééééé") = None.
Proof. repeat split. Qed.

Lemma rejections_none {A} (values : list A) : rejections (map Returned values) = nil.
Proof. induction values; simpl; auto. Qed.

Lemma fulfilled_all {A} (values : list A) : fulfilled (map Returned values) = values.
Proof. induction values as [|a l IH]; simpl; [reflexivity|now rewrite IH]. Qed.

Lemma no_rejection {A} (promises : list (result A)) :
  rejections promises = nil -> promises = map Returned (fulfilled promises).
Proof.
  induction promises as [|[a|e] rest IH]; simpl; [reflexivity| |discriminate].
  intros H. now rewrite <- (IH H).
Qed.

(** X11.  Once the arguments are accepted, a fetch fails only for one of
    five reasons, and each is reported under the prefix of line 552: the
    connection, the public key, the signature list, a rejected transaction
    request, or, with every request answered, a record among those found
    whose block time is outside the range of a [Date], for which the
    extractor throws [Invalid time value]. *)
Theorem fetch_failure_causes env args parsed e :
  FetchSolanaTransactionsArgsSchema args = Some parsed ->
  handleSolanaTool env "fetch_solana_transactions" args = Threw e ->
  exists cause,
    e = "Failed to fetch Solana transactions: " ++ cause /\
    (newConnection env = Threw cause \/
     newPublicKey env (FetchArgs.walletAddress parsed) = Threw cause \/
     (exists pubkey,
        newPublicKey env (FetchArgs.walletAddress parsed) = Returned pubkey /\
        getSignaturesForAddress env pubkey (FetchArgs.limit parsed) = Threw cause) \/
     (exists pubkey signatures,
        newPublicKey env (FetchArgs.walletAddress parsed) = Returned pubkey /\
        getSignaturesForAddress env pubkey (FetchArgs.limit parsed) = Returned signatures /\
        rejections (map (getTransaction env) signatures) <> nil /\
        cause = firstRejection env (rejections (map (getTransaction env) signatures))) \/
     (exists pubkey signatures fetched,
        newPublicKey env (FetchArgs.walletAddress parsed) = Returned pubkey /\
        getSignaturesForAddress env pubkey (FetchArgs.limit parsed) = Returned signatures /\
        map (getTransaction env) signatures = map Returned fetched /\
        forallb inRange (present fetched) = false /\
        cause = "Invalid time value")).
Proof.
  intros Hparse. unfold handleSolanaTool. rewrite String.eqb_refl, Hparse.
  destruct (newConnection env) as [[]|c] eqn:Hc; simpl.
  2:{ intros [= <-]. exists c. split; [reflexivity|]. now left. }
  destruct (newPublicKey env (FetchArgs.walletAddress parsed)) as [pubkey|c] eqn:Hp; simpl.
  2:{ intros [= <-]. exists c. split; [reflexivity|]. right. now left. }
  destruct (getSignaturesForAddress env pubkey (FetchArgs.limit parsed))
    as [signatures|c] eqn:Hs; simpl.
  2:{ intros [= <-]. exists c. split; [reflexivity|]. right. right. left. eauto. }
  unfold promiseAll.
  destruct (rejections (map (getTransaction env) signatures)) as [|r rs] eqn:Hr; simpl.
  - destruct (relevantTxs_summaries
                (fulfilled (map (getTransaction env) signatures))
                (FetchArgs.walletAddress parsed)) as (summaries & Hrel & _).
    rewrite Hrel.
    destruct (forallb inRange (present (fulfilled (map (getTransaction env) signatures))))
      eqn:Hin; simpl; [discriminate|].
    intros [= <-]. exists "Invalid time value". split; [reflexivity|].
    right. right. right. right.
    exists pubkey, signatures, (fulfilled (map (getTransaction env) signatures)).
    repeat split; try assumption. now apply no_rejection.
  - intros [= <-]. eexists. split; [reflexivity|].
    right. right. right. left. exists pubkey, signatures.
    rewrite Hr. repeat split; try assumption. discriminate.
Qed.

(** X12.  When the node answers every request and every record found has a
    block time in the range of a [Date], the result of a fetch carries one
    summary for each transaction found, in the order of the signature list,
    and its text is the rendering of that same list; signatures whose
    transaction is missing leave no trace in it. *)
Theorem fetch_success env args parsed pubkey signatures fetched :
  FetchSolanaTransactionsArgsSchema args = Some parsed ->
  newConnection env = Returned tt ->
  newPublicKey env (FetchArgs.walletAddress parsed) = Returned pubkey ->
  getSignaturesForAddress env pubkey (FetchArgs.limit parsed) = Returned signatures ->
  map (getTransaction env) signatures = map Returned fetched ->
  forallb inRange (present fetched) = true ->
  exists summaries,
    handleSolanaTool env "fetch_solana_transactions" args =
      Returned (textResult (JSON_stringify_summaries env (map Some summaries))
                  (Transactions (map Some summaries))) /\
    Forall2 (fun tx s =>
               Exact.extractRelevantTxData (Some tx) (FetchArgs.walletAddress parsed)
                 = Returned (Some s))
      (present fetched) summaries /\
    (List.length summaries <= List.length signatures)%nat.
Proof.
  intros Hparse Hc Hp Hs Hf Hin.
  destruct (relevantTxs_summaries fetched (FetchArgs.walletAddress parsed))
    as (summaries & Hrel & Hall).
  rewrite Hin in Hrel. specialize (Hall Hin).
  pose proof (present_length fetched) as Hlen.
  rewrite (Forall2_length Hall) in Hlen.
  exists summaries. split; [|split; [exact Hall|]].
  - unfold handleSolanaTool. rewrite String.eqb_refl, Hparse, Hc. simpl.
    rewrite Hp. simpl. rewrite Hs. simpl. unfold promiseAll.
    rewrite Hf, rejections_none, fulfilled_all. simpl. rewrite Hrel. reflexivity.
  - apply (f_equal (@List.length _)) in Hf. rewrite !length_map in Hf. lia.
Qed.

Lemma address_length_checked_first_witness :
  (handleSolanaTool sampleEnv "fetch_solana_transactions"
     (fetchArgs "11111111111111111111111111111111") =
     Threw "Invalid arguments for fetch_solana_transactions: [issues]" /\
   CallToolRequestHandler sampleEnv "fetch_solana_transactions"
     (fetchArgs "11111111111111111111111111111111") =
     Returned (errorResult "Invalid arguments for fetch_solana_transactions: [issues]")) /\
  (handleSolanaTool sampleEnv "fetch_solana_transactions"
     (fetchArgs "éééééééééééééééééééééé") =
     Threw "Invalid arguments for fetch_solana_transactions: [issues]" /\
   CallToolRequestHandler sampleEnv "fetch_solana_transactions"
     (fetchArgs "éééééééééééééééééééééé") =
     Returned (errorResult "Invalid arguments for fetch_solana_transactions: [issues]")).
Proof.
  split.
  - apply (address_length_checked_first sampleEnv
             [("walletAddress", JsonString "11111111111111111111111111111111")]%list
             "11111111111111111111111111111111").
    + reflexivity.
    + left. simpl. lia.
  - apply (address_length_checked_first sampleEnv
             [("walletAddress", JsonString "éééééééééééééééééééééé")]%list
             "éééééééééééééééééééééé").
    + reflexivity.
    + left. simpl. lia.
Defined.

Lemma fetch_failure_causes_witness :
  exists cause,
    "Failed to fetch Solana transactions: Invalid time value" =
      "Failed to fetch Solana transactions: " ++ cause /\
    (newConnection lateEnv = Threw cause \/
     newPublicKey lateEnv address44 = Threw cause \/
     (exists pubkey,
        newPublicKey lateEnv address44 = Returned pubkey /\
        getSignaturesForAddress lateEnv pubkey (inject_Z 100) = Threw cause) \/
     (exists pubkey signatures,
        newPublicKey lateEnv address44 = Returned pubkey /\
        getSignaturesForAddress lateEnv pubkey (inject_Z 100) = Returned signatures /\
        rejections (map (getTransaction lateEnv) signatures) <> nil /\
        cause = firstRejection lateEnv
                  (rejections (map (getTransaction lateEnv) signatures))) \/
     (exists pubkey signatures fetched,
        newPublicKey lateEnv address44 = Returned pubkey /\
        getSignaturesForAddress lateEnv pubkey (inject_Z 100) = Returned signatures /\
        map (getTransaction lateEnv) signatures = map Returned fetched /\
        forallb inRange (present fetched) = false /\
        cause = "Invalid time value")).
Proof.
  apply (fetch_failure_causes lateEnv (fetchArgs address44)
           {| FetchArgs.walletAddress := address44; FetchArgs.limit := inject_Z 100 |}).
  - reflexivity.
  - reflexivity.
Defined.

Lemma fetch_success_witness :
  exists summaries,
    handleSolanaTool sampleEnv "fetch_solana_transactions" (fetchArgs address44) =
      Returned (textResult (JSON_stringify_summaries sampleEnv (map Some summaries))
                  (Transactions (map Some summaries))) /\
    Forall2 (fun tx s => Exact.extractRelevantTxData (Some tx) address44 = Returned (Some s))
      [nativeTx]%list summaries /\
    (List.length summaries <= 2)%nat.
Proof.
  apply (fetch_success sampleEnv (fetchArgs address44)
           {| FetchArgs.walletAddress := address44; FetchArgs.limit := inject_Z 100 |}
           (key address44) ["4sig"; "gone"]%list [Some nativeTx; None]%list);
    reflexivity.
Defined.

(** ** The Coral tools and the dispatcher (lines 356-504 and 572-603) *)

Lemma makeRequest_fails {A} (fetch : Http.Request -> result (Http.Response A))
    client endpoint options e :
  failsWith (fetch (requestOf client endpoint options)) e ->
  makeRequest fetch client endpoint options = Threw e.
Proof.
  unfold makeRequest. intros [H|(response & H & Hok & ->)]; rewrite H; simpl;
    [reflexivity|]. now rewrite Hok.
Qed.

Ltac coral_case :=
  unfold handleCoralTool;
  repeat match goal with
         | |- context [String.eqb ?a ?b] =>
             let v := eval vm_compute in (String.eqb a b) in
             change (String.eqb a b) with v
         end;
  cbv iota.

(** The shape of every outcome of a Coral tool: a text result that is not an
    error, the validation message, or the failure of the request under the
    prefix of the tool. *)
Lemma handleCoralTool_outcome env name args :
  In name coralTools ->
  (exists t d, handleCoralTool env name args = Returned (textResult t d)) \/
  (accepts name args = false /\
   exists schema, schemaOf name = Some schema /\
     handleCoralTool env name args =
       Threw ("Invalid arguments for " ++ name ++ ": " ++ ZodError_toString env schema args)) \/
  (accepts name args = true /\
   exists e, handleCoralTool env name args = Threw (failurePrefix name ++ e)).
Proof.
  unfold coralTools. intros [<-|[<-|[<-|[<-|[<-|[<-|[]]]]]]]; coral_case.
  - unfold accepts; cbn [String.eqb Ascii.eqb Bool.eqb].
    destruct (CoralSessionArgsSchema args) as [parsed|].
    + unfold createSession.
      destruct (makeRequest _ _ _ _) as [session|e]; simpl.
      * left. eauto.
      * right. right. split; [reflexivity|]. exists e. reflexivity.
    + right. left. split; [reflexivity|]. eexists. split; reflexivity.
  - unfold getSessions. destruct (makeRequest _ _ _ _) as [sessions|e]; simpl.
    + left. eauto.
    + right. right. split; [reflexivity|]. exists e. reflexivity.
  - unfold accepts; cbn [String.eqb Ascii.eqb Bool.eqb].
    destruct (CoralThreadArgsSchema args) as [parsed|].
    + unfold createThread.
      destruct (makeRequest _ _ _ _) as [thread|e]; simpl.
      * left. eauto.
      * right. right. split; [reflexivity|]. exists e. reflexivity.
    + right. left. split; [reflexivity|]. eexists. split; reflexivity.
  - unfold accepts; cbn [String.eqb Ascii.eqb Bool.eqb].
    destruct (CoralMessageArgsSchema args) as [parsed|].
    + unfold sendMessage.
      destruct (makeRequest _ _ _ _) as [sent|e]; simpl.
      * left. eauto.
      * right. right. split; [reflexivity|]. exists e. reflexivity.
    + right. left. split; [reflexivity|]. eexists. split; reflexivity.
  - unfold accepts; cbn [String.eqb Ascii.eqb Bool.eqb].
    destruct (CoralDiscoverArgsSchema args) as [parsed|].
    + unfold discoverAgents.
      destruct (makeRequest _ _ _ _) as [agents|e]; simpl.
      * left. eauto.
      * right. right. split; [reflexivity|]. exists e. reflexivity.
    + right. left. split; [reflexivity|]. eexists. split; reflexivity.
  - unfold advertiseAgent. destruct (makeRequest _ _ _ _) as [advertisement|e]; simpl.
    + left. eauto.
    + right. right. split; [reflexivity|]. exists e. reflexivity.
Qed.

Lemma handleSolanaTool_outcome env args :
  (exists t d,
     handleSolanaTool env "fetch_solana_transactions" args = Returned (textResult t d)) \/
  (accepts "fetch_solana_transactions" args = false /\
   handleSolanaTool env "fetch_solana_transactions" args =
     Threw ("Invalid arguments for fetch_solana_transactions: "
              ++ ZodError_toString env FetchSolanaTransactionsArgs args)) \/
  (accepts "fetch_solana_transactions" args = true /\
   exists e,
     handleSolanaTool env "fetch_solana_transactions" args =
       Threw ("Failed to fetch Solana transactions: " ++ e)).
Proof.
  unfold handleSolanaTool, accepts. rewrite String.eqb_refl.
  destruct (FetchSolanaTransactionsArgsSchema args) as [parsed|].
  - match goal with
    | |- context [try_catch ?body _] => destruct body as [r|e] eqn:Hbody
    end.
    + left. cbn [try_catch].
      destruct (newConnection env) as [[]|]; [|discriminate]. simpl in Hbody.
      destruct (newPublicKey env _); [|discriminate]. simpl in Hbody.
      destruct (getSignaturesForAddress env _ _); [|discriminate]. simpl in Hbody.
      destruct (promiseAll env _); [|discriminate]. simpl in Hbody.
      destruct (relevantTxs _ _); [|discriminate]. simpl in Hbody.
      injection Hbody as <-. eauto.
    + right. right. split; [reflexivity|]. exists e. reflexivity.
  - right. left. split; reflexivity.
Qed.

Lemma failurePrefix_head name : exists rest, failurePrefix name = String "F" rest.
Proof.
  unfold failurePrefix.
  repeat match goal with
         | |- context [if ?b then _ else _] => destruct b
         end; eexists; reflexivity.
Qed.

Lemma not_coral_tool env name args :
  ~ In name coralTools ->
  handleCoralTool env name args = Threw ("Unknown Coral tool: " ++ name).
Proof.
  intros Hnot. unfold handleCoralTool.
  repeat match goal with
         | |- context [String.eqb name ?s] =>
             destruct (String.eqb_spec name s) as [->|_];
             [exfalso; apply Hnot; unfold coralTools; simpl; tauto|]
         end.
  reflexivity.
Qed.

Lemma includes_coralTools name :
  existsb (String.eqb name) coralTools = true <-> In name coralTools.
Proof.
  rewrite existsb_exists. split.
  - intros (x & Hin & Heq). apply String.eqb_eq in Heq. now subst.
  - intros Hin. exists name. split; [exact Hin|apply String.eqb_refl].
Qed.

(** X13. The dispatcher never throws.  What it returns is either the text
    result of a handler, which is not flagged as an error, or an error
    result: one text item, the thrown message behind the error mark, no
    data, and the error flag. *)
Theorem dispatcher_never_throws env name args :
  exists r,
    CallToolRequestHandler env name args = Returned r /\
    ((exists t d, r = textResult t d /\ isError r = false) \/
     (exists e, r = errorResult e /\ isError r = true)).
Proof.
  unfold CallToolRequestHandler.
  destruct (String.eqb_spec name "fetch_solana_transactions") as [->|Hne].
  - destruct (handleSolanaTool_outcome env args)
      as [(t & d & H)|[(_ & H)|(_ & e & H)]]; rewrite H; simpl; eauto 8.
  - destruct (existsb (String.eqb name) coralTools) eqn:Hin.
    + apply includes_coralTools in Hin.
      destruct (handleCoralTool_outcome env name args Hin)
        as [(t & d & H)|[(_ & s & _ & H)|(_ & e & H)]]; rewrite H; simpl; eauto 8.
    + simpl. eauto 8.
Qed.

Lemma advertised_tools name :
  In name (map Tool.name ListToolsRequestHandler) <->
  name = "fetch_solana_transactions" \/ In name coralTools.
Proof.
  unfold ListToolsRequestHandler, solanaTools, coralTools. simpl.
  split; intros H; repeat (destruct H as [H|H]; [subst; tauto|]); tauto.
Qed.

(** X14. The tool list and the dispatcher agree: the names that the list
    request advertises are exactly the names that are routed to a handler,
    and the answer [Unknown tool] is given to the other names and to no
    advertised one. *)
Theorem advertised_tools_are_routed env name args :
  (In name (map Tool.name ListToolsRequestHandler) <->
   name = "fetch_solana_transactions" \/ In name coralTools) /\
  (CallToolRequestHandler env name args = Returned (errorResult ("Unknown tool: " ++ name)) <->
   ~ In name (map Tool.name ListToolsRequestHandler)).
Proof.
  split; [apply advertised_tools|]. rewrite advertised_tools.
  unfold CallToolRequestHandler.
  destruct (String.eqb_spec name "fetch_solana_transactions") as [->|Hne].
  - split; [|tauto]. intros H. exfalso.
    destruct (handleSolanaTool_outcome env args)
      as [(t & d & E)|[(_ & E)|(_ & e & E)]]; rewrite E in H; simpl in H;
      injection H as H; try discriminate;
      apply (f_equal (fun c => match c with
                               | {| text := String a _ |} :: _ => a
                               | _ => "#"%char
                               end)) in H; discriminate.
  - destruct (existsb (String.eqb name) coralTools) eqn:Hin.
    + apply includes_coralTools in Hin. split; [|tauto]. intros H. exfalso.
      destruct (failurePrefix_head name) as [rest Hrest].
      destruct (handleCoralTool_outcome env name args Hin)
        as [(t & d & E)|[(_ & s & _ & E)|(_ & e & E)]]; rewrite E in H; simpl in H;
        injection H as H; try discriminate.
      rewrite Hrest in H. simpl in H. discriminate.
    + split; [|reflexivity]. intros _ [H|H]; [contradiction|].
      apply includes_coralTools in H. congruence.
Qed.

(** X15. The [default] branches of the two handlers answer exactly the names
    outside their own case lists, and no call that comes through the
    dispatcher can reach them. *)
Theorem unknown_branches_unreachable env name args :
  (handleCoralTool env name args = Threw ("Unknown Coral tool: " ++ name) <->
   ~ In name coralTools) /\
  (handleSolanaTool env name args = Threw ("Unknown Solana tool: " ++ name) <->
   name <> "fetch_solana_transactions") /\
  CallToolRequestHandler env name args <>
    Returned (errorResult ("Unknown Coral tool: " ++ name)) /\
  CallToolRequestHandler env name args <>
    Returned (errorResult ("Unknown Solana tool: " ++ name)).
Proof.
  assert (Hcoral : handleCoralTool env name args = Threw ("Unknown Coral tool: " ++ name) <->
                   ~ In name coralTools).
  { split; [|apply not_coral_tool]. intros H Hin.
    destruct (failurePrefix_head name) as [rest Hrest].
    destruct (handleCoralTool_outcome env name args Hin)
      as [(t & d & E)|[(_ & s & _ & E)|(_ & e & E)]]; rewrite E in H; try discriminate.
    rewrite Hrest in H. simpl in H. discriminate. }
  assert (Hsolana : handleSolanaTool env name args = Threw ("Unknown Solana tool: " ++ name) <->
                    name <> "fetch_solana_transactions").
  { split.
    - intros H ->.
      destruct (handleSolanaTool_outcome env args)
        as [(t & d & E)|[(_ & E)|(_ & e & E)]]; rewrite E in H; discriminate.
    - intros Hne. unfold handleSolanaTool.
      now destruct (String.eqb_spec name "fetch_solana_transactions"). }
  split; [exact Hcoral|]. split; [exact Hsolana|].
  unfold CallToolRequestHandler.
  destruct (String.eqb_spec name "fetch_solana_transactions") as [->|Hne].
  - destruct (handleSolanaTool_outcome env args)
      as [(t & d & E)|[(_ & E)|(_ & e & E)]]; rewrite E; simpl;
      split; intros H; injection H as H; discriminate.
  - destruct (existsb (String.eqb name) coralTools) eqn:Hin.
    + apply includes_coralTools in Hin.
      destruct (failurePrefix_head name) as [rest Hrest].
      destruct (handleCoralTool_outcome env name args Hin)
        as [(t & d & E)|[(_ & s & _ & E)|(_ & e & E)]]; rewrite E; simpl;
        split; intros H; injection H as H; try discriminate;
        rewrite Hrest in H; simpl in H; discriminate.
    + simpl. split; intros H; unfold errorResult in H; simpl in H; congruence.
Qed.

Lemma schema_tools name schema :
  schemaOf name = Some schema ->
  (name = "fetch_solana_transactions" /\ schema = FetchSolanaTransactionsArgs) \/
  (name = "create_coral_session" /\ schema = CoralSessionArgs) \/
  (name = "create_coral_thread" /\ schema = CoralThreadArgs) \/
  (name = "send_coral_message" /\ schema = CoralMessageArgs) \/
  (name = "discover_coral_agents" /\ schema = CoralDiscoverArgs).
Proof.
  unfold schemaOf.
  repeat match goal with
         | |- context [String.eqb name ?s] =>
             destruct (String.eqb_spec name s) as [->|_];
             [intros [= <-]; tauto|]
         end.
  discriminate.
Qed.

(** X16. The five tools that validate their arguments refuse a call whose
    arguments are not a JSON object, the call without any arguments
    included, even where every field of the schema is optional; the request
    is answered with the validation message and nothing is sent. *)
Theorem arguments_must_be_an_object env name schema args :
  schemaOf name = Some schema ->
  (forall fields, args <> Some (JsonObject fields)) ->
  CallToolRequestHandler env name args =
    Returned (errorResult ("Invalid arguments for " ++ name ++ ": "
                             ++ ZodError_toString env schema args)).
Proof.
  intros Hschema Hargs.
  assert (Hobj : z_object args = None).
  { destruct args as [[]|]; try reflexivity. now elim (Hargs fields). }
  unfold CallToolRequestHandler.
  destruct (schema_tools name schema Hschema)
    as [[-> ->]|[[-> ->]|[[-> ->]|[[-> ->]|[-> ->]]]]].
  - unfold handleSolanaTool, FetchSolanaTransactionsArgsSchema.
    rewrite String.eqb_refl, Hobj. reflexivity.
  - cbn [String.eqb Ascii.eqb Bool.eqb existsb coralTools orb]. coral_case.
    unfold CoralSessionArgsSchema. rewrite Hobj. reflexivity.
  - cbn [String.eqb Ascii.eqb Bool.eqb existsb coralTools orb]. coral_case.
    unfold CoralThreadArgsSchema. rewrite Hobj. reflexivity.
  - cbn [String.eqb Ascii.eqb Bool.eqb existsb coralTools orb]. coral_case.
    unfold CoralMessageArgsSchema. rewrite Hobj. reflexivity.
  - cbn [String.eqb Ascii.eqb Bool.eqb existsb coralTools orb]. coral_case.
    unfold CoralDiscoverArgsSchema. rewrite Hobj. reflexivity.
Qed.

Lemma arguments_must_be_an_object_witness :
  CallToolRequestHandler sampleEnv "create_coral_session" None =
    Returned (errorResult "Invalid arguments for create_coral_session: [issues]").
Proof.
  apply (arguments_must_be_an_object sampleEnv "create_coral_session" CoralSessionArgs None).
  - reflexivity.
  - discriminate.
Defined.

(** X17. When the Coral server cannot be reached, or answers with a status
    that is not ok, every Coral tool whose arguments are accepted ends in
    an error result whose text names the tool's action and then the cause:
    the rejection, or [Coral Protocol API error:] with status and status
    text.  The body of such an answer is never read. *)
Theorem coral_failure_is_reported env e name args :
  serverFails env e ->
  In name coralTools ->
  accepts name args = true ->
  CallToolRequestHandler env name args =
    Returned (errorResult (failurePrefix name ++ e)).
Proof.
  intros (H1 & H2 & H3 & H4 & H5 & H6) Hin Hacc.
  unfold CallToolRequestHandler.
  assert (Hroute : existsb (String.eqb name) coralTools = true)
    by now apply includes_coralTools.
  assert (Hne : String.eqb name "fetch_solana_transactions" = false).
  { apply String.eqb_neq. intros ->. unfold coralTools in Hin. simpl in Hin.
    repeat (destruct Hin as [Hin|Hin]; [discriminate|]). exact Hin. }
  rewrite Hne, Hroute. clear Hroute Hne.
  unfold coralTools in Hin.
  destruct Hin as [<-|[<-|[<-|[<-|[<-|[<-|[]]]]]]]; coral_case;
    unfold accepts in Hacc; cbn [String.eqb Ascii.eqb Bool.eqb] in Hacc.
  - destruct (CoralSessionArgsSchema args); [|discriminate].
    unfold createSession. now rewrite (makeRequest_fails _ _ _ _ e (H1 _)).
  - unfold getSessions. now rewrite (makeRequest_fails _ _ _ _ e (H2 _)).
  - destruct (CoralThreadArgsSchema args); [|discriminate].
    unfold createThread. now rewrite (makeRequest_fails _ _ _ _ e (H3 _)).
  - destruct (CoralMessageArgsSchema args); [|discriminate].
    unfold sendMessage. now rewrite (makeRequest_fails _ _ _ _ e (H4 _)).
  - destruct (CoralDiscoverArgsSchema args); [|discriminate].
    unfold discoverAgents. now rewrite (makeRequest_fails _ _ _ _ e (H5 _)).
  - unfold advertiseAgent. now rewrite (makeRequest_fails _ _ _ _ e (H6 _)).
Qed.

Lemma coral_failure_is_reported_witness :
  CallToolRequestHandler sampleEnv "list_coral_sessions" None =
    Returned (errorResult "Failed to list Coral sessions: fetch failed").
Proof.
  apply (coral_failure_is_reported sampleEnv "fetch failed" "list_coral_sessions" None).
  - repeat split; intros q; left; reflexivity.
  - unfold coralTools. simpl. tauto.
  - reflexivity.
Defined.

Lemma requestOf_standard env endpoint method body :
  Http.headers
    (requestOf (coralClient env) endpoint
       {| init_method := method; init_body := body; init_headers := None |})
    = standardHeaders (CORAL_API_KEY env) /\
  exists path,
    Http.url
      (requestOf (coralClient env) endpoint
         {| init_method := method; init_body := body; init_headers := None |})
      = or_string (CORAL_SERVER_URL env) "http://localhost:5555" ++ path.
Proof.
  split; [|exists endpoint; reflexivity].
  unfold requestOf, coralClient, standardHeaders, or_option. simpl.
  destruct (CORAL_API_KEY env) as [k|]; [|reflexivity].
  now destruct (String.eqb k EmptyString).
Qed.

Lemma makeRequest_same {A} (f f' : Http.Request -> result (Http.Response A))
    env endpoint method body :
  (forall q,
     Http.headers q = standardHeaders (CORAL_API_KEY env) /\
     (exists path,
        Http.url q = or_string (CORAL_SERVER_URL env) "http://localhost:5555" ++ path) ->
     f q = f' q) ->
  makeRequest f (coralClient env) endpoint
    {| init_method := method; init_body := body; init_headers := None |} =
  makeRequest f' (coralClient env) endpoint
    {| init_method := method; init_body := body; init_headers := None |}.
Proof.
  intros H. unfold makeRequest.
  now rewrite (H _ (requestOf_standard env endpoint method body)).
Qed.

(** X18. The Coral tools speak only to the configured server and only with
    the standard headers: the content type, and the bearer token exactly
    when an API key is configured and not empty.  What the server would
    answer to any other request has no influence on any outcome. *)
Theorem coral_requests_are_standard env env' name args :
  sameUpTo
    (fun q =>
       Http.headers q = standardHeaders (CORAL_API_KEY env) /\
       exists path,
         Http.url q = or_string (CORAL_SERVER_URL env) "http://localhost:5555" ++ path)
    env env' ->
  handleCoralTool env name args = handleCoralTool env' name args.
Proof.
  intros (Hurl & Hkey & Hjs & Hji & Hz & H1 & H2 & H3 & H4 & H5 & H6).
  assert (Hclient : coralClient env' = coralClient env)
    by (unfold coralClient; now rewrite Hurl, Hkey).
  unfold handleCoralTool. rewrite <- Hz, <- Hji, Hclient.
  unfold createSession, getSessions, createThread, sendMessage, discoverAgents,
    advertiseAgent, post, noOptions.
  rewrite <- Hjs.
  repeat match goal with
         | |- context [String.eqb name ?s] => destruct (String.eqb name s)
         end;
    try reflexivity;
    try match goal with
        | |- context [match ?parse args with _ => _ end] => destruct (parse args)
        end;
    try reflexivity.
  - now rewrite (makeRequest_same _ _ env _ _ _ H1).
  - now rewrite (makeRequest_same _ _ env _ _ _ H2).
  - now rewrite (makeRequest_same _ _ env _ _ _ H3).
  - now rewrite (makeRequest_same _ _ env _ _ _ H4).
  - now rewrite (makeRequest_same _ _ env _ _ _ H5).
  - now rewrite (makeRequest_same _ _ env _ _ _ H6).
Qed.

Lemma coral_requests_are_standard_witness :
  handleCoralTool sampleEnv "advertise_solana_agent" None =
  handleCoralTool guardedEnv "advertise_solana_agent" None.
Proof.
  apply (coral_requests_are_standard sampleEnv guardedEnv "advertise_solana_agent" None).
  repeat split; try reflexivity;
    intros q [Hq _]; unfold guardedEnv, guarded; simpl; rewrite Hq; reflexivity.
Defined.

Lemma rejections_In {A} (promises : list (result A)) cause :
  In (Threw cause) promises -> In cause (rejections promises).
Proof.
  induction promises as [|[a|c] rest IH]; simpl; [tauto| |].
  - intros [H|H]; [discriminate|auto].
  - intros [[= ->]|H]; [now left|right; auto].
Qed.

(** X19. One rejected transaction request fails the whole fetch: the
    transactions that did arrive are dropped with it, and the error names
    the rejection that settled first. *)
Theorem one_rejection_fails_the_fetch env args parsed pubkey signatures sig cause :
  FetchSolanaTransactionsArgsSchema args = Some parsed ->
  newConnection env = Returned tt ->
  newPublicKey env (FetchArgs.walletAddress parsed) = Returned pubkey ->
  getSignaturesForAddress env pubkey (FetchArgs.limit parsed) = Returned signatures ->
  In sig signatures ->
  getTransaction env sig = Threw cause ->
  In cause (rejections (map (getTransaction env) signatures)) /\
  handleSolanaTool env "fetch_solana_transactions" args =
    Threw ("Failed to fetch Solana transactions: "
             ++ firstRejection env (rejections (map (getTransaction env) signatures))).
Proof.
  intros Hparse Hc Hp Hs Hin Hsig.
  assert (Hrej : In cause (rejections (map (getTransaction env) signatures))).
  { apply rejections_In. rewrite <- Hsig. now apply in_map. }
  split; [exact Hrej|].
  unfold handleSolanaTool. rewrite String.eqb_refl, Hparse, Hc. simpl.
  rewrite Hp. simpl. rewrite Hs. simpl. unfold promiseAll.
  destruct (rejections (map (getTransaction env) signatures)); [contradiction|].
  reflexivity.
Qed.

Lemma one_rejection_fails_the_fetch_witness :
  In "socket hang up" (rejections (map (getTransaction flakyEnv) ["4sig"; "gone"]%list)) /\
  handleSolanaTool flakyEnv "fetch_solana_transactions" (fetchArgs address44) =
    Threw ("Failed to fetch Solana transactions: "
             ++ firstRejection flakyEnv
                  (rejections (map (getTransaction flakyEnv) ["4sig"; "gone"]%list))).
Proof.
  apply (one_rejection_fails_the_fetch flakyEnv (fetchArgs address44)
           {| FetchArgs.walletAddress := address44; FetchArgs.limit := inject_Z 100 |}
           (key address44) ["4sig"; "gone"]%list "gone" "socket hang up");
    try reflexivity.
  simpl. tauto.
Defined.

(** ** advertiseAgent (lines 157-185) *)

Lemma property_assign base k v k' :
  property (assign base k v) k' = if String.eqb k k' then Some v else property base k'.
Proof.
  induction base as [|[k0 v0] rest IH]; simpl.
  - reflexivity.
  - destruct (String.eqb_spec k0 k) as [->|Hne]; simpl.
    + now destruct (String.eqb k k').
    + destruct (String.eqb_spec k0 k') as [->|Hne'].
      * destruct (String.eqb_spec k k'); [congruence|reflexivity].
      * exact IH.
Qed.

Lemma property_absent over k : ~ In k (map fst over) -> property over k = None.
Proof.
  induction over as [|[k0 v0] rest IH]; simpl; [reflexivity|].
  intros H. destruct (String.eqb_spec k0 k); [tauto|]. apply IH. tauto.
Qed.

Lemma property_spread base over k :
  NoDup (map fst over) ->
  property (spread base over) k =
    match property over k with
    | Some v => Some v
    | None => property base k
    end.
Proof.
  unfold spread. revert base.
  induction over as [|[k0 v0] rest IH]; intros base Hnd; simpl; [reflexivity|].
  inversion Hnd as [|? ? Hnotin Hnd']; subst.
  rewrite (IH _ Hnd'), property_assign.
  destruct (String.eqb_spec k0 k) as [->|Hne]; [|reflexivity].
  now rewrite (property_absent rest k Hnotin).
Qed.

(** X20.  The advertisement that [advertiseAgent] posts to
    [/agents/advertise] is the default one with the caller's fields laid
    over it: a field the caller gives replaces the default of that name,
    identifier included, every other field keeps its default, and the call
    of the tool handler, which gives none, posts the default as it is. *)
Theorem advertisement_overrides env client advertisement :
  NoDup (map fst advertisement) ->
  exists fields,
    advertiseAgent env client advertisement =
      makeRequest (fetch_advertisement env) client "/agents/advertise"
        {| init_method := Some "POST";
           init_body := Some (JSON_stringify env (JsonObject fields));
           init_headers := None |} /\
    (forall k,
       property fields k =
         match property advertisement k with
         | Some v => Some v
         | None => property defaultAdvertisement k
         end) /\
    (advertisement = nil -> fields = defaultAdvertisement).
Proof.
  intros Hnd. exists (spread defaultAdvertisement advertisement).
  split; [reflexivity|]. split.
  - intros k. now apply property_spread.
  - now intros ->.
Qed.

Lemma advertisement_overrides_witness :
  exists fields,
    advertiseAgent sampleEnv (coralClient sampleEnv) [("id", JsonString "other-agent")]%list =
      makeRequest (fetch_advertisement sampleEnv) (coralClient sampleEnv) "/agents/advertise"
        {| init_method := Some "POST";
           init_body := Some (JSON_stringify sampleEnv (JsonObject fields));
           init_headers := None |} /\
    property fields "id" = Some (JsonString "other-agent") /\
    property fields "name" = Some (JsonString "Solana MCP Agent") /\
    property fields "framework" = Some (JsonString "mcp").
Proof.
  assert (Hnd : NoDup (map fst [("id", JsonString "other-agent")]%list)).
  { repeat constructor. simpl. tauto. }
  destruct (advertisement_overrides sampleEnv (coralClient sampleEnv)
              [("id", JsonString "other-agent")]%list Hnd)
    as (fields & Hsent & Hfields & _).
  exists fields. split; [exact Hsent|].
  split; [exact (Hfields "id")|]. split; [exact (Hfields "name")|exact (Hfields "framework")].
Defined.
